(** * Booking, payment reconciliation and rating logic of the hotel
      management system (src/app.js)

    The route handlers of [app.js] are embedded as functions on an explicit
    database state.  [app.js] holds two revisions of the application; the
    handlers below follow the first one (lines 1-602) and the Mongoose
    schemas, which only the second one declares inline, follow lines 649-707.

    Conventions of the embedding:
    - a collection addressed by [_id] ([findById], [findByIdAndUpdate],
      [save]) is a [gmap] from [ObjectId] to documents; the [Payment]
      collection, which is only searched with [findOneAndUpdate] on other
      fields, is a list in insertion order, the order in which MongoDB
      returns the first match;
    - a [Date] is its number of milliseconds since the epoch, a [Z];
      the server's time zone has a fixed offset, so that
      [setDate(getDate() + 7)] adds [7 * 86400000] milliseconds;
    - [Number] fields read from forms (rooms, price, rating) hold integer
      numerals and are [Z]; [averageRating], a quotient, is a [Q];
    - fresh [ObjectId]s, the clock and the answers of the payment processor
      are arguments of the handlers;
    - an exception caught by the handler's [try] yields the response of its
      [catch]; an exception in a handler without [try] yields [Unhandled]
      and leaves the database as it was at the point of the throw. *)

From stdpp Require Import base option list gmap strings sorting.
From Stdlib Require Import ZArith QArith Lia.

Open Scope string_scope.
Open Scope list_scope.
Open Scope Z_scope.

Abbreviation ObjectId := N (only parsing).
Abbreviation Date := Z (only parsing).

(** ** Documents (schemas, app.js 649-707) *)

Module User.
Record t := mk { username : string; password : string; isAdmin : bool }.
End User.

Module Review.
Record t := mk {
  text : string;
  rating : Z;
  author_id : ObjectId;
  author_username : string }.

Definition set_text_rating (t' : string) (r' : Z) (r : t) : t :=
  mk t' r' (author_id r) (author_username r).
End Review.

Module Hotel.
Record t := mk {
  name : string;
  price : Z;
  totalRooms : Z;
  averageRating : Q;
  author_id : ObjectId;
  reviews : list ObjectId }.

Definition set_averageRating (a : Q) (h : t) : t :=
  mk (name h) (price h) (totalRooms h) a (author_id h) (reviews h).
Definition set_reviews (l : list ObjectId) (h : t) : t :=
  mk (name h) (price h) (totalRooms h) (averageRating h) (author_id h) l.
End Hotel.

Module Booking.
Inductive Status := pending | confirmed | cancelled.
Inductive PaymentStatus := pay_pending | completed | failed.

Record t := mk {
  hotel : ObjectId;
  user : ObjectId;
  checkInDate : Date;
  checkOutDate : Date;
  numberOfRooms : Z;
  totalPrice : Z;
  status : Status;
  paymentStatus : PaymentStatus;
  paymentIntentId : option string;
  createdAt : Date }.

Definition set_status (s : Status) (b : t) : t :=
  mk (hotel b) (user b) (checkInDate b) (checkOutDate b) (numberOfRooms b)
     (totalPrice b) s (paymentStatus b) (paymentIntentId b) (createdAt b).
Definition set_paymentStatus (s : PaymentStatus) (b : t) : t :=
  mk (hotel b) (user b) (checkInDate b) (checkOutDate b) (numberOfRooms b)
     (totalPrice b) (status b) s (paymentIntentId b) (createdAt b).
Definition set_paymentIntentId (i : string) (b : t) : t :=
  mk (hotel b) (user b) (checkInDate b) (checkOutDate b) (numberOfRooms b)
     (totalPrice b) (status b) (paymentStatus b) (Some i) (createdAt b).

#[global] Instance Status_eq_dec : EqDecision Status.
Proof. solve_decision. Defined.
#[global] Instance PaymentStatus_eq_dec : EqDecision PaymentStatus.
Proof. solve_decision. Defined.
End Booking.

Module Payment.
Inductive Status := pending | succeeded | failed.

Record t := mk {
  booking : ObjectId;
  user : ObjectId;
  amount : Z;
  currency : string;
  paymentIntentId : string;
  status : Status;
  createdAt : Date }.

Definition set_status (s : Status) (p : t) : t :=
  mk (booking p) (user p) (amount p) (currency p) (paymentIntentId p) s
     (createdAt p).

#[global] Instance Status_eq_dec : EqDecision Status.
Proof. solve_decision. Defined.
End Payment.

(** ** The database *)

Record Db := mkDb {
  users : gmap N User.t;
  hotels : gmap N Hotel.t;
  reviews : gmap N Review.t;
  bookings : gmap N Booking.t;
  payments : list Payment.t }.

Definition set_hotels (f : gmap N Hotel.t → gmap N Hotel.t) (db : Db) : Db :=
  mkDb (users db) (f (hotels db)) (reviews db) (bookings db) (payments db).
Definition set_reviews (f : gmap N Review.t → gmap N Review.t) (db : Db) : Db :=
  mkDb (users db) (hotels db) (f (reviews db)) (bookings db) (payments db).
Definition set_bookings (f : gmap N Booking.t → gmap N Booking.t) (db : Db) : Db :=
  mkDb (users db) (hotels db) (reviews db) (f (bookings db)) (payments db).
Definition set_payments (f : list Payment.t → list Payment.t) (db : Db) : Db :=
  mkDb (users db) (hotels db) (reviews db) (bookings db) (f (payments db)).

(** [Model.findOneAndUpdate(filter, update)] on a collection kept in
    insertion order: the first document matching the filter is updated,
    nothing happens when none matches. *)
Fixpoint findOneAndUpdate {A} (filter : A → bool) (update : A → A)
    (docs : list A) : list A :=
  match docs with
  | [] => []
  | d :: docs' =>
      if filter d then update d :: docs'
      else d :: findOneAndUpdate filter update docs'
  end.

(** ** Responses *)

Inductive Response :=
  | Redirect (url : string)
  | Send (body : string)
  | SendOnlyRoomsAvailable (availableRooms : Z)
      (* `Only ${availableRooms} rooms available for these dates` *)
  | RedirectPayment (bookingId : ObjectId)
      (* `/bookings/${booking._id}/payment` *)
  | RedirectHotel (hotelId : ObjectId)       (* '/hotels/' + id *)
  | Status (code : Z) (body : string)
  | Json (body : string)
  | JsonClientSecret (clientSecret : string)
  | Unhandled.

(** ** POST /hotels/:id/book (app.js 357-413) *)

Definition day_ms : Z := 1000 * 60 * 60 * 24.

(** [Math.ceil(a / b)] for integers [a] and [b]. *)
Definition Math_ceil_div (a b : Z) : Z := - ((- a) / b).

(** The query of step 2: confirmed bookings of the hotel with
    [checkInDate <= checkOut] and [checkOutDate >= checkIn]. *)
Definition overlap_query (hid : ObjectId) (checkIn checkOut : Date)
    (b : Booking.t) : Prop :=
  Booking.hotel b = hid ∧ Booking.status b = Booking.confirmed ∧
  Booking.checkInDate b <= checkOut ∧ Booking.checkOutDate b >= checkIn.

#[global] Instance overlap_query_dec hid ci co b :
  Decision (overlap_query hid ci co b).
Proof. unfold overlap_query. apply _. Defined.

Definition existingBookings (db : Db) (hid : ObjectId)
    (checkIn checkOut : Date) : list Booking.t :=
  filter (overlap_query hid checkIn checkOut) (map_to_list (bookings db)).*2.

(** [existingBookings.reduce((sum, booking) => sum + booking.numberOfRooms, 0)] *)
Definition bookedRooms (existing : list Booking.t) : Z :=
  foldl (λ sum booking, sum + Booking.numberOfRooms booking) 0 existing.

Definition availableRooms (db : Db) (hotel : Hotel.t) (hid : ObjectId)
    (checkIn checkOut : Date) : Z :=
  Hotel.totalRooms hotel - bookedRooms (existingBookings db hid checkIn checkOut).

(** Steps 1 to 3 of the handler (validation, availability, price); step 4
    creates the booking. *)
Inductive Validated :=
  | InvalidDates
  | HotelIsNull                      (* [hotel.totalRooms] throws *)
  | OnlyAvailable (available : Z)
  | Priced (nights totalPrice : Z).

Definition validate_and_price (db : Db) (hotel : option Hotel.t)
    (hid : ObjectId) (checkIn checkOut : Date) (numberOfRooms : Z)
    (today : Date) : Validated :=
  if decide (checkIn < today ∨ checkOut <= checkIn) then InvalidDates
  else
    match hotel with
    | None => HotelIsNull
    | Some hotel =>
        let available := availableRooms db hotel hid checkIn checkOut in
        if decide (numberOfRooms > available) then OnlyAvailable available
        else
          let nights := Math_ceil_div (checkOut - checkIn) day_ms in
          Priced nights (Hotel.price hotel * numberOfRooms * nights)
    end.

(** [Booking.create]: the schema requires [numberOfRooms >= 1]
    ([min: 1]); a document that fails validation raises. *)
Definition Booking_create (newId : ObjectId) (b : Booking.t) (db : Db)
    : option Db :=
  if decide (1 <= Booking.numberOfRooms b)
  then Some (set_bookings (insert newId b) db)
  else None.

Definition post_hotels_book (db : Db) (sessionUserId hid : ObjectId)
    (checkIn checkOut : Date) (numberOfRooms : Z) (today : Date)
    (newId : ObjectId) : Db * Response :=
  match users db !! sessionUserId with
  | None => (db, Send "Booking failed")      (* [user.isAdmin] throws *)
  | Some user =>
      if User.isAdmin user then (db, Send "Admins cannot book hotels")
      else
        match validate_and_price db (hotels db !! hid) hid checkIn checkOut
                numberOfRooms today with
        | InvalidDates => (db, Send "Invalid dates")
        | HotelIsNull => (db, Send "Booking failed")
        | OnlyAvailable available => (db, SendOnlyRoomsAvailable available)
        | Priced nights totalPrice =>
            (* status, paymentStatus and createdAt take the schema defaults;
               the clock is read once per request *)
            let booking :=
              Booking.mk hid sessionUserId checkIn checkOut numberOfRooms
                totalPrice Booking.pending Booking.pay_pending None today in
            match Booking_create newId booking db with
            | None => (db, Send "Booking failed")
            | Some db' => (db', RedirectPayment newId)
            end
        end
  end.


(** ** Payment routes (app.js 441-543) *)

Module Stripe.
(** What the handlers read of a PaymentIntent: its id and the booking id
    that [POST /bookings/:id/payment] attached as metadata. *)
Record PaymentIntent := mkIntent { id : string; metadata_bookingId : ObjectId }.
Record Event := mkEvent { type : string; data_object : PaymentIntent }.
End Stripe.

(** POST /bookings/:id/payment.  [created] is the answer of
    [stripe.paymentIntents.create]: the id and client secret of the new
    intent, or [None] when the call raises. *)
Definition post_bookings_payment (db : Db) (sessionUserId id : ObjectId)
    (created : option (string * string)) (now : Date) : Db * Response :=
  match bookings db !! id with
  | None => (db, Status 404 "Booking not found")
  | Some booking =>
      match users db !! Booking.user booking with
      | None => (db, Status 500 "Payment processing failed")
      | Some _ =>
          if decide (Booking.user booking = sessionUserId) then
            match created with
            | None => (db, Status 500 "Payment processing failed")
            | Some (intentId, clientSecret) =>
                let db1 :=
                  set_bookings
                    (insert id (Booking.set_paymentIntentId intentId booking))
                    db in
                let payment :=
                  Payment.mk id (Booking.user booking)
                    (Booking.totalPrice booking) "usd" intentId
                    Payment.pending now in
                (set_payments (λ docs, docs ++ [payment]) db1,
                 JsonClientSecret clientSecret)
            end
          else (db, Status 403 "Unauthorized")
      end
  end.

(** The update of both confirmation paths:
    [{ status: 'confirmed', paymentStatus: 'completed' }]. *)
Definition mark_confirmed (b : Booking.t) : Booking.t :=
  Booking.set_paymentStatus Booking.completed
    (Booking.set_status Booking.confirmed b).

Section Webhook.
(** [stripe.webhooks.constructEvent(payload, header, secret)], which returns
    the event when the signature verifies and raises otherwise, and the
    configured [STRIPE_WEBHOOK_SECRET]. *)
Variable constructEvent : string → string → string → option Stripe.Event.
Variable STRIPE_WEBHOOK_SECRET : string.

(** POST /webhook/stripe *)
Definition post_webhook_stripe (db : Db) (body sig : string)
    : Db * Response :=
  match constructEvent body sig STRIPE_WEBHOOK_SECRET with
  | None => (db, Status 400 "Webhook Error")
  | Some event =>
      if decide (Stripe.type event = "payment_intent.succeeded") then
        let paymentIntent := Stripe.data_object event in
        let bookingId := Stripe.metadata_bookingId paymentIntent in
        let db1 := set_bookings (alter mark_confirmed bookingId) db in
        let db2 :=
          set_payments
            (findOneAndUpdate
               (λ p, bool_decide
                       (Payment.paymentIntentId p = Stripe.id paymentIntent))
               (Payment.set_status Payment.succeeded))
            db1 in
        (db2, Json "{received: true}")
      else (db, Json "{received: true}")
  end.
End Webhook.

(** GET /payment-success?booking_id=... *)
Definition get_payment_success (db : Db) (sessionUserId : ObjectId)
    (booking_id : option ObjectId) : Db * Response :=
  match booking_id with
  | None => (db, Redirect "/my-bookings")
  | Some bookingId =>
      match bookings db !! bookingId with
      | None => (db, Redirect "/my-bookings")
      | Some booking =>
          if decide (Booking.user booking = sessionUserId) then
            let db1 :=
              set_bookings (insert bookingId (mark_confirmed booking)) db in
            let db2 :=
              set_payments
                (findOneAndUpdate
                   (λ p, bool_decide (Payment.booking p = bookingId))
                   (Payment.set_status Payment.succeeded))
                db1 in
            (db2, Redirect "/my-bookings?payment=success")
          else (db, Redirect "/my-bookings")
      end
  end.

(** ** POST /bookings/:id/cancel (app.js 559-579) *)

Definition post_bookings_cancel (db : Db) (sessionUserId id : ObjectId)
    (now : Date) : Db * Response :=
  match bookings db !! id with
  | None => (db, Redirect "/my-bookings")
  | Some booking =>
      if decide (Booking.user booking = sessionUserId) then
        if decide (Booking.status booking = Booking.cancelled)
        then (db, Send "Booking is already cancelled")
        else
          let oneWeekFromNow := now + 7 * day_ms in
          if decide (Booking.checkInDate booking <= oneWeekFromNow)
          then (db, Send "Cannot cancel booking within 1 week of check-in date")
          else
            (set_bookings
               (insert id (Booking.set_status Booking.cancelled booking)) db,
             Redirect "/my-bookings")
      else (db, Redirect "/my-bookings")
  end.

(** ** Review routes and the rating average (app.js 251-341) *)

(** [.populate('reviews')]: the review documents of the hotel's id array,
    ids without a document dropped. *)
Definition populate_reviews (db : Db) (hotel : Hotel.t) : list Review.t :=
  omap (λ rid, reviews db !! rid) (Hotel.reviews hotel).

(** [reviews.reduce((acc, next) => acc + next.rating, 0)] *)
Definition rating_sum (rs : list Review.t) : Z :=
  foldl (λ acc next, acc + Review.rating next) 0 rs.

(** [reviews.length > 0 ? sum / reviews.length : 0] *)
Definition average (rs : list Review.t) : Q :=
  if decide (0 < length rs)%nat
  then (inject_Z (rating_sum rs) / inject_Z (Z.of_nat (length rs)))%Q
  else 0%Q.

Definition recalculateHotelRating (hotelId : ObjectId) (db : Db) : Db :=
  match hotels db !! hotelId with
  | None => db
  | Some hotel =>
      set_hotels
        (insert hotelId
           (Hotel.set_averageRating (average (populate_reviews db hotel)) hotel))
        db
  end.

(** The verified-stay query of the review route. *)
Definition stayed (hid uid : ObjectId) (b : Booking.t) : Prop :=
  Booking.hotel b = hid ∧ Booking.user b = uid ∧
  Booking.status b = Booking.confirmed ∧
  Booking.paymentStatus b = Booking.completed.

#[global] Instance stayed_dec hid uid b : Decision (stayed hid uid b).
Proof. unfold stayed. apply _. Defined.

Definition hasBooked (db : Db) (hid uid : ObjectId) : bool :=
  bool_decide (Exists (stayed hid uid) (map_to_list (bookings db)).*2).

(** POST /hotels/:id/reviews.  The route recomputes the average inline,
    with the statements that are the body of [recalculateHotelRating]. *)
Definition post_hotels_reviews (db : Db) (sessionUserId hid : ObjectId)
    (text : string) (rating : Z) (newId : ObjectId) : Db * Response :=
  match hotels db !! hid, users db !! sessionUserId with
  | Some hotel, Some user =>
      if decide (Hotel.author_id hotel = sessionUserId)
      then (db, Send "Cannot review own hotel")
      else if User.isAdmin user then (db, Send "Admins cannot add reviews")
      else if negb (hasBooked db hid sessionUserId)
      then (db, Send "You can only review hotels you have booked and stayed at")
      else if bool_decide
                (Exists (λ r, Review.author_id r = sessionUserId)
                   (populate_reviews db hotel))
      then (db, Send "Already reviewed")
      else
        let review :=
          Review.mk text rating sessionUserId (User.username user) in
        let db1 := set_reviews (insert newId review) db in
        let db2 :=
          set_hotels
            (insert hid
               (Hotel.set_reviews (Hotel.reviews hotel ++ [newId]) hotel))
            db1 in
        (recalculateHotelRating hid db2, RedirectHotel hid)
  | _, _ => (db, Unhandled)
  end.

(** PUT /hotels/:id/reviews/:reviewId *)
Definition put_hotels_reviews (db : Db) (sessionUserId hid reviewId : ObjectId)
    (text : string) (rating : Z) : Db * Response :=
  match reviews db !! reviewId with
  | None => (db, Unhandled)
  | Some review =>
      if decide (Review.author_id review = sessionUserId) then
        let db1 :=
          set_reviews (alter (Review.set_text_rating text rating) reviewId) db in
        (recalculateHotelRating hid db1, RedirectHotel hid)
      else (db, Redirect "back")
  end.

(** DELETE /hotels/:id/reviews/:reviewId *)
Definition delete_hotels_reviews (db : Db)
    (sessionUserId hid reviewId : ObjectId) : Db * Response :=
  match reviews db !! reviewId with
  | None => (db, Unhandled)
  | Some review =>
      if decide (Review.author_id review = sessionUserId) then
        let db1 :=
          set_hotels
            (alter (λ h, Hotel.set_reviews
                           (filter (λ r, r ≠ reviewId) (Hotel.reviews h)) h)
               hid)
            db in
        let db2 := set_reviews (delete reviewId) db1 in
        (recalculateHotelRating hid db2, RedirectHotel hid)
      else (db, Redirect "back")
  end.


(** * Specification-side definitions *)

(** The committed-rooms count as the specification words it: every booking
    of the hotel that is confirmed and passes the overlap test adds its
    rooms, every other booking adds nothing. *)
Definition counts_as_committed (hid : ObjectId) (checkIn checkOut : Date)
    (existing : Booking.t) : bool :=
  bool_decide (Booking.hotel existing = hid) &&
  bool_decide (Booking.status existing = Booking.confirmed) &&
  (Booking.checkInDate existing <=? checkOut) &&
  (checkIn <=? Booking.checkOutDate existing).

Definition rooms_committed_by (hid : ObjectId) (checkIn checkOut : Date)
    (existing : Booking.t) : Z :=
  if counts_as_committed hid checkIn checkOut existing
  then Booking.numberOfRooms existing else 0.

Definition committedRooms_spec (bs : gmap N Booking.t) (hid : ObjectId)
    (checkIn checkOut : Date) : Z :=
  map_fold (λ _ b acc, rooms_committed_by hid checkIn checkOut b + acc) 0 bs.


(** * Rating invariants *)

#[global] Instance Qle_decision (x y : Q) : Decision (x <= y)%Q.
Proof. unfold Qle. apply _. Defined.
#[global] Instance Qeq_decision (x y : Q) : Decision (x == y)%Q.
Proof. unfold Qeq. apply _. Defined.

(** Every stored review has a rating from 1 to 5. *)
Definition ratings_in_range (db : Db) : Prop :=
  map_Forall (λ _ r, 1 <= Review.rating r <= 5) (reviews db).

(** Every hotel's average lies between 0 and 5. *)
Definition averages_in_range (db : Db) : Prop :=
  map_Forall
    (λ _ h, (0 <= Hotel.averageRating h)%Q ∧ (Hotel.averageRating h <= 5)%Q)
    (hotels db).

(** Every hotel's average is the one recomputed from its current reviews. *)
Definition averages_current (db : Db) : Prop :=
  map_Forall
    (λ _ h, (Hotel.averageRating h == average (populate_reviews db h))%Q)
    (hotels db).

(** No hotel other than [hid] lists the review [rid]. *)
Definition listed_only_by (db : Db) (rid hid : ObjectId) : Prop :=
  map_Forall (λ hid' h', rid ∈ Hotel.reviews h' → hid' = hid) (hotels db).

#[global] Instance ratings_in_range_dec db : Decision (ratings_in_range db).
Proof. unfold ratings_in_range. apply _. Defined.
#[global] Instance averages_in_range_dec db : Decision (averages_in_range db).
Proof. unfold averages_in_range. apply _. Defined.
#[global] Instance averages_current_dec db : Decision (averages_current db).
Proof. unfold averages_current. apply _. Defined.
#[global] Instance listed_only_by_dec db rid hid :
  Decision (listed_only_by db rid hid).
Proof. unfold listed_only_by. apply _. Defined.

Inductive ReviewRequest :=
  | CreateReview (uid hid : ObjectId) (text : string) (rating : Z)
      (newId : ObjectId)
  | UpdateReview (uid hid rid : ObjectId) (text : string) (rating : Z)
  | DeleteReview (uid hid rid : ObjectId).

Definition review_route (db : Db) (req : ReviewRequest) : Db * Response :=
  match req with
  | CreateReview uid hid text rating newId =>
      post_hotels_reviews db uid hid text rating newId
  | UpdateReview uid hid rid text rating =>
      put_hotels_reviews db uid hid rid text rating
  | DeleteReview uid hid rid => delete_hotels_reviews db uid hid rid
  end.

(** The request submits a rating from 1 to 5 and names a review through the
    hotel that lists it; a created review receives an unused id. *)
Definition request_in_range (db : Db) (req : ReviewRequest) : Prop :=
  match req with
  | CreateReview _ hid _ rating newId =>
      1 <= rating <= 5 ∧ reviews db !! newId = None
      ∧ listed_only_by db newId hid
  | UpdateReview _ hid rid _ rating =>
      1 <= rating <= 5 ∧ listed_only_by db rid hid
  | DeleteReview _ hid rid => listed_only_by db rid hid
  end.

(** * The server as a transition system *)

Inductive Request :=
  | Book (uid hid : ObjectId) (checkIn checkOut : Date) (numberOfRooms : Z)
      (today : Date) (newId : ObjectId)
  | Pay (uid id : ObjectId) (created : option (string * string)) (now : Date)
  | Webhook (body sig : string)
  | SuccessPage (uid : ObjectId) (booking_id : option ObjectId)
  | Cancel (uid id : ObjectId) (now : Date)
  | Reviewing (req : ReviewRequest).

Section Server.
Variable constructEvent : string → string → string → option Stripe.Event.
Variable STRIPE_WEBHOOK_SECRET : string.

Definition handle (db : Db) (req : Request) : Db * Response :=
  match req with
  | Book uid hid checkIn checkOut numberOfRooms today newId =>
      post_hotels_book db uid hid checkIn checkOut numberOfRooms today newId
  | Pay uid id created now => post_bookings_payment db uid id created now
  | Webhook body sig =>
      post_webhook_stripe constructEvent STRIPE_WEBHOOK_SECRET db body sig
  | SuccessPage uid booking_id => get_payment_success db uid booking_id
  | Cancel uid id now => post_bookings_cancel db uid id now
  | Reviewing req => review_route db req
  end.
End Server.

(** * A concrete run

    One guest, two hotels, and a stand-in for the library's signature
    check that accepts a payload when the header equals the secret and
    reads the payload as the id of an intent that succeeded for booking
    [100].  It exercises the webhook handler as written, on a verified
    event; the route as mounted never hands the handler a payload that
    verifies (see [webhook_route]). *)

Definition day (n : Z) : Date := n * day_ms.

Definition guest : User.t := User.mk "guest" "password123" false.
Definition inn : Hotel.t := Hotel.mk "Cozy Corner" 100 12 0%Q 2 [].
Definition lodge : Hotel.t := Hotel.mk "Mountain Lodge" 180 25 0%Q 2 [].

Definition db0 : Db :=
  mkDb {[ 1%N := guest ]} {[ 10%N := inn; 11%N := lodge ]} ∅ ∅ [].

Definition demo_constructEvent (payload header secret : string)
    : option Stripe.Event :=
  if decide (header = secret)
  then Some (Stripe.mkEvent "payment_intent.succeeded"
               (Stripe.mkIntent payload 100%N))
  else None.

(** The guest books two rooms from day 10 to day 13 on day 1. *)
Definition db_booked : Db :=
  (post_hotels_book db0 1 10 (day 10) (day 13) 2 (day 1) 100).1.

(** The payment page is loaded once: one intent, one Payment record. *)
Definition db_intent : Db :=
  (post_bookings_payment db_booked 1 100 (Some ("pi_1", "secret_1")) (day 1)).1.

(** The payment page is loaded a second time: a second attempt. *)
Definition db_retry : Db :=
  (post_bookings_payment db_intent 1 100 (Some ("pi_2", "secret_2")) (day 1)).1.

(** The guest cancels on day 2, more than a week ahead. *)
Definition db_cancelled : Db :=
  (post_bookings_cancel db_intent 1 100 (day 2)).1.

(** The processor reports the second attempt as succeeded. *)
Definition db_webhook : Db :=
  (post_webhook_stripe demo_constructEvent "whsec" db_retry "pi_2" "whsec").1.

(** The guest's browser is sent to the success page. *)
Definition db_fallback : Db := (get_payment_success db_retry 1 (Some 100%N)).1.

Definition payment_statuses (db : Db) : list Payment.Status :=
  Payment.status <$> payments db.

Definition booking_state (db : Db) (id : ObjectId)
    : option (Booking.Status * Booking.PaymentStatus) :=
  (λ b, (Booking.status b, Booking.paymentStatus b)) <$> bookings db !! id.

(** The guest, whose stay is confirmed and paid, reviews the inn. *)
Definition db_reviewed : Db :=
  (post_hotels_reviews db_webhook 1 10 "Lovely stay" 5 500).1.

(** The booking of the run once its first payment intent exists. *)
Definition booking_100 : Booking.t :=
  Booking.mk 10 1 (day 10) (day 13) 2 600 Booking.pending Booking.pay_pending
    (Some "pi_1") (day 1).

(** The processor reports the only attempt of [db_intent] as succeeded. *)
Definition db_paid : Db :=
  (post_webhook_stripe demo_constructEvent "whsec" db_intent "pi_1" "whsec").1.

(** Closed decidable statements are settled by evaluation. *)
Ltac by_evaluation :=
  lazymatch goal with
  | |- ¬ ?P => apply (bool_decide_eq_false_1 P); vm_compute; reflexivity
  | |- ?P => apply (bool_decide_eq_true_1 P); vm_compute; reflexivity
  end.

(** * Sessions, middleware and the remaining routes (app.js 79-240, 551-593)

    The session holds the id of the logged-in user, if any.  Routes that
    render a page return the rows handed to the template, or the response
    of the middleware that stopped the request. *)

Abbreviation Session := (option N) (only parsing).

Definition set_users (f : gmap N User.t → gmap N User.t) (db : Db) : Db :=
  mkDb (f (users db)) (hotels db) (reviews db) (bookings db) (payments db).

(** [isLoggedIn]: [if (req.session.userId) return next()]. *)
Definition isLoggedIn {A} (session : Session) (stopped : Response → A)
    (next : ObjectId → A) : A :=
  match session with
  | Some userId => next userId
  | None => stopped (Redirect "/login")
  end.

(** [isAdmin]: the session's user must exist and be an admin. *)
Definition isAdmin {A} (db : Db) (session : Session) (stopped : Response → A)
    (next : A) : A :=
  match session with
  | Some userId =>
      match users db !! userId with
      | Some user =>
          if User.isAdmin user then next
          else stopped (Status 403
            "Access Denied: Only Admins can add or manage hotels.")
      | None => stopped (Status 403
            "Access Denied: Only Admins can add or manage hotels.")
      end
  | None => stopped (Status 403
            "Access Denied: Only Admins can add or manage hotels.")
  end.

(** [checkHotelOwnership]: only the admin who created the hotel passes; a
    missing hotel makes [foundHotel.author] throw. *)
Definition checkHotelOwnership {A} (db : Db) (session : Session)
    (hid : ObjectId) (stopped : Response → A) (next : A) : A :=
  match session with
  | Some userId =>
      match hotels db !! hid with
      | Some foundHotel =>
          if decide (Hotel.author_id foundHotel = userId) then next
          else stopped (Redirect "back")
      | None => stopped Unhandled
      end
  | None => stopped (Redirect "back")
  end.

(** ** Authentication (app.js 130-156) *)

(** POST /register: no check that the name is free; the admin code grants
    admin rights; the new user is logged in. *)
Definition post_register (db : Db) (username password adminCode : string)
    (newId : ObjectId) : Db * Session * Response :=
  let isAdmin := bool_decide (adminCode = "secret123") in
  (set_users (insert newId (User.mk username password isAdmin)) db,
   Some newId, Redirect "/hotels").

(** [User.findOne({ username })]: a user with that name, the first one in
    storage order when several have it. *)
Definition User_findOne_username (db : Db) (username : string)
    : option (ObjectId * User.t) :=
  head (filter (λ iu, User.username iu.2 = username) (map_to_list (users db))).

(** POST /login *)
Definition post_login (db : Db) (session : Session)
    (username password : string) : Session * Response :=
  match User_findOne_username db username with
  | Some (userId, user) =>
      if decide (User.password user = password)
      then (Some userId, Redirect "/hotels")
      else (session, Redirect "/login")
  | None => (session, Redirect "/login")
  end.

(** GET /logout *)
Definition get_logout (session : Session) : Session * Response :=
  (None, Redirect "/hotels").

(** ** Hotel routes (app.js 164-240) *)

(** GET /hotels?minRating=..&maxPrice=..: each filter applies when its
    query parameter is present. *)
Definition hotel_matches (minRating : option Q) (maxPrice : option Z)
    (h : Hotel.t) : Prop :=
  match minRating with
  | Some m => (m <= Hotel.averageRating h)%Q
  | None => True
  end
  ∧ match maxPrice with
    | Some p => Hotel.price h <= p
    | None => True
    end.

#[global] Instance hotel_matches_dec minRating maxPrice h :
  Decision (hotel_matches minRating maxPrice h).
Proof. unfold hotel_matches. destruct minRating, maxPrice; apply _. Defined.

Definition get_hotels (db : Db) (minRating : option Q) (maxPrice : option Z)
    : list (ObjectId * Hotel.t) :=
  filter (λ ih, hotel_matches minRating maxPrice ih.2)
    (map_to_list (hotels db)).

(** POST /hotels (admins only).  [totalRooms] is [req.body.totalRooms || 10];
    [file] is the uploaded image, whose absence makes [req.file.filename]
    throw.  Image, description and amenities are not part of [Hotel.t]. *)
Definition post_hotels (db : Db) (session : Session) (name : string)
    (price : Z) (totalRooms : option Z) (file : option string)
    (newId : ObjectId) : Db * Response :=
  isLoggedIn session (λ r, (db, r)) (λ userId,
    isAdmin db session (λ r, (db, r))
      match users db !! userId, file with
      | Some user, Some _ =>
          (set_hotels
             (insert newId
                (Hotel.mk name price (default 10 totalRooms) 0%Q userId []))
             db,
           Redirect "/hotels")
      | _, _ => (db, Unhandled)
      end).

(** The update document [req.body.hotel] of PUT /hotels/:id: the fields it
    sets. *)
Module HotelUpdate.
Record t := mk {
  name : option string;
  price : option Z;
  totalRooms : option Z;
  averageRating : option Q;
  author_id : option N;
  reviews : option (list N) }.

Definition apply (u : t) (h : Hotel.t) : Hotel.t :=
  Hotel.mk (default (Hotel.name h) (name u))
    (default (Hotel.price h) (price u))
    (default (Hotel.totalRooms h) (totalRooms u))
    (default (Hotel.averageRating h) (averageRating u))
    (default (Hotel.author_id h) (author_id u))
    (default (Hotel.reviews h) (reviews u)).
End HotelUpdate.

(** PUT /hotels/:id (owner only) *)
Definition put_hotels (db : Db) (session : Session) (hid : ObjectId)
    (update : HotelUpdate.t) : Db * Response :=
  isLoggedIn session (λ r, (db, r)) (λ _,
    checkHotelOwnership db session hid (λ r, (db, r))
      (set_hotels (alter (HotelUpdate.apply update) hid) db,
       RedirectHotel hid)).

(** DELETE /hotels/:id (owner only) *)
Definition delete_hotels (db : Db) (session : Session) (hid : ObjectId)
    : Db * Response :=
  isLoggedIn session (λ r, (db, r)) (λ _,
    checkHotelOwnership db session hid (λ r, (db, r))
      (set_hotels (delete hid) db, Redirect "/hotels")).

(** GET /my-hotels *)
Definition get_my_hotels (db : Db) (session : Session)
    : Response + list (ObjectId * Hotel.t) :=
  isLoggedIn session inl (λ userId,
    inr (filter (λ ih, Hotel.author_id ih.2 = userId)
           (map_to_list (hotels db)))).

(** ** Booking lists (app.js 551-556, 582-593) *)

(** [.sort({ createdAt: -1 })]: newest first.  The rows are the booking
    documents; the hotel and user documents that [populate] joins to them
    for the template are not represented. *)
Definition newer_first (x y : ObjectId * Booking.t) : Prop :=
  Booking.createdAt y.2 <= Booking.createdAt x.2.

#[global] Instance newer_first_dec : RelDecision newer_first.
Proof. intros x y. unfold newer_first. apply _. Defined.

(** GET /my-bookings *)
Definition get_my_bookings (db : Db) (session : Session)
    : Response + list (ObjectId * Booking.t) :=
  isLoggedIn session inl (λ userId,
    inr (merge_sort newer_first
           (filter (λ ib, Booking.user ib.2 = userId)
              (map_to_list (bookings db))))).


(** * Runs of requests and what they keep *)

Section Runs.
Variable constructEvent : string → string → string → option Stripe.Event.
Variable STRIPE_WEBHOOK_SECRET : string.

(** The database after a sequence of requests. *)
Definition run (db : Db) (reqs : list Request) : Db :=
  foldl (λ db req, (handle constructEvent STRIPE_WEBHOOK_SECRET db req).1)
    db reqs.

(** The request is a confirmation of booking [id]: a webhook call whose
    event verifies, is a [payment_intent.succeeded] and names [id], or a
    success-page request for [id]. *)
Definition confirms (id : ObjectId) (req : Request) : Prop :=
  match req with
  | Webhook body sig =>
      ∃ event,
        constructEvent body sig STRIPE_WEBHOOK_SECRET = Some event
        ∧ Stripe.type event = "payment_intent.succeeded"
        ∧ Stripe.metadata_bookingId (Stripe.data_object event) = id
  | SuccessPage _ booking_id => booking_id = Some id
  | _ => False
  end.
End Runs.

(** The request does not reuse the id of a stored booking for a new one. *)
Definition fresh_booking_id (db : Db) (req : Request) : Prop :=
  match req with
  | Book _ _ _ _ _ _ newId => bookings db !! newId = None
  | _ => True
  end.

(** What no route rewrites in a booking. *)
Definition same_reservation (b b' : Booking.t) : Prop :=
  Booking.hotel b' = Booking.hotel b ∧ Booking.user b' = Booking.user b
  ∧ Booking.checkInDate b' = Booking.checkInDate b
  ∧ Booking.checkOutDate b' = Booking.checkOutDate b
  ∧ Booking.numberOfRooms b' = Booking.numberOfRooms b
  ∧ Booking.totalPrice b' = Booking.totalPrice b
  ∧ Booking.createdAt b' = Booking.createdAt b.

(** A stored booking spans at least an instant and reserves a room. *)
Definition booking_well_formed (b : Booking.t) : Prop :=
  Booking.checkInDate b < Booking.checkOutDate b
  ∧ 1 <= Booking.numberOfRooms b.

#[global] Instance booking_well_formed_dec b : Decision (booking_well_formed b).
Proof. unfold booking_well_formed. apply _. Defined.

(** No hotel lists two reviews by the same author. *)
Definition one_review_per_author (db : Db) : Prop :=
  map_Forall
    (λ _ h, NoDup (Review.author_id <$> populate_reviews db h))
    (hotels db).

#[global] Instance one_review_per_author_dec db :
  Decision (one_review_per_author db).
Proof. unfold one_review_per_author. apply _. Defined.

(** No hotel lists the id, and no review is stored under it. *)
Definition unused_review_id (db : Db) (newId : ObjectId) : Prop :=
  reviews db !! newId = None
  ∧ map_Forall (λ _ h, newId ∉ Hotel.reviews h) (hotels db).

#[global] Instance unused_review_id_dec db newId :
  Decision (unused_review_id db newId).
Proof. unfold unused_review_id. apply _. Defined.

(** The request would store a new booking under [id]. *)
Definition creates (id : ObjectId) (req : Request) : Prop :=
  match req with
  | Book _ _ _ _ _ _ newId => newId = id
  | _ => False
  end.

(** A run of the concrete server: booking, payment page, a forged and a
    genuine callback, a reload of the success page and a late cancellation
    attempt. *)
Definition demo_requests : list Request :=
  [ Book 1 10 (day 10) (day 13) 2 (day 1) 100;
    Pay 1 100 (Some ("pi_1", "secret_1")) (day 1);
    Webhook "pi_1" "forged";
    Webhook "pi_1" "whsec";
    SuccessPage 1 (Some 100%N);
    Cancel 1 100 (day 5) ].

(** A review created by the request receives an unused id. *)
Definition fresh_review_id (db : Db) (req : ReviewRequest) : Prop :=
  match req with
  | CreateReview _ _ _ _ newId => unused_review_id db newId
  | _ => True
  end.

(** The guest's stay at the inn is confirmed and paid, and reviewed. *)
Definition db_guest_reviewed : Db :=
  (post_hotels_reviews db_paid 1 10 "Lovely stay" 5 500).1.

(** The administrator who created both hotels of the run registers. *)
Definition db_with_admin : Db :=
  (post_register db_paid "admin1" "password123" "secret123" 2).1.1.

(** Requests that neither confirm nor cancel: booking, payment page and the
    review routes. *)
Definition holds_no_rooms (req : Request) : Prop :=
  match req with
  | Book _ _ _ _ _ _ _ | Pay _ _ _ _ | Reviewing _ => True
  | _ => False
  end.

(** * The webhook route as mounted (app.js 34-35, 482-492)

    [app.use(bodyParser.json())] (line 35) is mounted before the route, so
    a JSON request reaches the route's own [express.raw] (line 482) with
    its body already read and parsed; [express.raw] then leaves it alone
    and [req.body] is an object when the handler runs.
    [stripe.webhooks.constructEvent] (line 488) checks the signature over
    the raw payload, a string or Buffer, and raises on anything else.
    [verify] is the library's check on a raw payload. *)

Inductive ReqBody :=
  | Stream (raw : string)         (* not read yet *)
  | ParsedObject (raw : string)   (* read and parsed by [bodyParser.json] *)
  | Buffer (raw : string).        (* read by [express.raw] *)

Definition bodyParser_json (body : ReqBody) : ReqBody :=
  match body with
  | Stream raw => ParsedObject raw
  | _ => body
  end.

Definition express_raw (body : ReqBody) : ReqBody :=
  match body with
  | Stream raw => Buffer raw
  | _ => body
  end.

Definition stripe_constructEvent
    (verify : string → string → string → option Stripe.Event)
    (body : ReqBody) (sig secret : string) : option Stripe.Event :=
  match body with
  | Buffer raw => verify raw sig secret
  | _ => None
  end.

(** POST /webhook/stripe behind the middleware of the application, for a
    request of content type [application/json] with payload [raw]. *)
Definition webhook_route
    (verify : string → string → string → option Stripe.Event)
    (secret : string) (db : Db) (raw sig : string) : Db * Response :=
  let body := express_raw (bodyParser_json (Stream raw)) in
  post_webhook_stripe
    (λ _ sig secret, stripe_constructEvent verify body sig secret)
    secret db raw sig.

(** The same handler had the route's parser come first. *)
Definition webhook_route_raw_first
    (verify : string → string → string → option Stripe.Event)
    (secret : string) (db : Db) (raw sig : string) : Db * Response :=
  let body := bodyParser_json (express_raw (Stream raw)) in
  post_webhook_stripe
    (λ _ sig secret, stripe_constructEvent verify body sig secret)
    secret db raw sig.


(** * Availability (step 2 of POST /hotels/:id/book) *)

Section Availability.
Implicit Types (bs : gmap N Booking.t) (b : Booking.t) (l : list Booking.t).

Lemma counts_as_committed_query hid ci co b :
  counts_as_committed hid ci co b = true ↔ overlap_query hid ci co b.
Proof.
  unfold counts_as_committed, overlap_query.
  rewrite !andb_true_iff, !bool_decide_eq_true, !Z.leb_le.
  intuition lia.
Qed.

Lemma foldl_rooms_acc l (a : Z) :
  foldl (λ sum booking, sum + Booking.numberOfRooms booking) a l
  = a + bookedRooms l.
Proof.
  unfold bookedRooms. revert a.
  induction l as [|b l IH]; intros a; simpl; [lia|].
  rewrite (IH (a + _)), (IH (0 + _)). lia.
Qed.

Lemma bookedRooms_cons b l :
  bookedRooms (b :: l) = Booking.numberOfRooms b + bookedRooms l.
Proof.
  unfold bookedRooms at 1. simpl. rewrite foldl_rooms_acc. lia.
Qed.

Lemma bookedRooms_perm l l' : l ≡ₚ l' → bookedRooms l = bookedRooms l'.
Proof.
  induction 1 as [|b l l' _ IH|b b' l|l l1 l2 _ IH1 _ IH2].
  - reflexivity.
  - rewrite !bookedRooms_cons. lia.
  - rewrite !bookedRooms_cons. lia.
  - congruence.
Qed.

Lemma bookedRooms_filter_cons hid ci co b l :
  bookedRooms (filter (overlap_query hid ci co) (b :: l))
  = rooms_committed_by hid ci co b
    + bookedRooms (filter (overlap_query hid ci co) l).
Proof.
  unfold rooms_committed_by.
  destruct (counts_as_committed hid ci co b) eqn:E.
  - apply counts_as_committed_query in E.
    rewrite filter_cons_True by done. apply bookedRooms_cons.
  - rewrite filter_cons_False; [lia|].
    intros Hq. apply counts_as_committed_query in Hq. congruence.
Qed.

(** Replacing or adding the document stored under [i] replaces its
    contribution and nothing else. *)
Lemma bookedRooms_insert hid ci co bs i b :
  bookedRooms (filter (overlap_query hid ci co) (map_to_list (<[i:=b]> bs)).*2)
  = rooms_committed_by hid ci co b
    + bookedRooms
        (filter (overlap_query hid ci co) (map_to_list (delete i bs)).*2).
Proof.
  rewrite <- bookedRooms_filter_cons.
  apply bookedRooms_perm, filter_Permutation.
  rewrite <- (insert_delete_eq bs).
  rewrite map_to_list_insert by apply lookup_delete_eq.
  reflexivity.
Qed.

Lemma bookedRooms_spec bs hid ci co :
  bookedRooms (filter (overlap_query hid ci co) (map_to_list bs).*2)
  = committedRooms_spec bs hid ci co.
Proof.
  unfold committedRooms_spec.
  induction bs as [|i b bs Hi IH] using map_ind.
  - rewrite map_to_list_empty, map_fold_empty. reflexivity.
  - rewrite bookedRooms_insert, delete_id by done.
    rewrite map_fold_insert_L; [lia| |done].
    intros. lia.
Qed.
End Availability.

(** C5. The rooms counted as committed for a hotel and a requested interval
    are the sum of [numberOfRooms] over exactly the bookings of that hotel
    that are confirmed and satisfy
    [existing.checkIn <= requested.checkOut] and
    [existing.checkOut >= requested.checkIn]; the available rooms are
    [hotel.totalRooms] minus that sum; storing a booking under an id changes
    the count by exactly that booking's contribution, which is zero for a
    pending or cancelled booking. *)
Theorem committed_rooms_sum_of_confirmed_overlapping
    (db : Db) (hotel : Hotel.t) (hid : ObjectId) (checkIn checkOut : Date) :
  bookedRooms (existingBookings db hid checkIn checkOut)
    = committedRooms_spec (bookings db) hid checkIn checkOut
  ∧ availableRooms db hotel hid checkIn checkOut
    = Hotel.totalRooms hotel
      - committedRooms_spec (bookings db) hid checkIn checkOut
  ∧ (∀ i b,
       bookedRooms
         (existingBookings (set_bookings (insert i b) db) hid checkIn checkOut)
       = bookedRooms
           (existingBookings (set_bookings (delete i) db) hid checkIn checkOut)
         + (if decide (Booking.hotel b = hid
                       ∧ Booking.status b = Booking.confirmed
                       ∧ Booking.checkInDate b <= checkOut
                       ∧ checkIn <= Booking.checkOutDate b)
            then Booking.numberOfRooms b else 0))
  ∧ (∀ i b s,
       bookedRooms
         (existingBookings
            (set_bookings (insert i (Booking.set_status Booking.pending b)) db)
            hid checkIn checkOut)
       = bookedRooms
           (existingBookings (set_bookings (delete i) db) hid checkIn checkOut)
       ∧ bookedRooms
         (existingBookings
            (set_bookings (insert i (Booking.set_status Booking.cancelled b)) db)
            hid checkIn checkOut)
       = bookedRooms
           (existingBookings (set_bookings (delete i) db) hid checkIn checkOut)
       ∧ rooms_committed_by hid checkIn checkOut
           (Booking.set_status s b)
         = if decide (s = Booking.confirmed)
           then rooms_committed_by hid checkIn checkOut
                  (Booking.set_status Booking.confirmed b)
           else 0).
Proof.
  unfold availableRooms, existingBookings. simpl.
  split; [apply bookedRooms_spec|].
  split; [by rewrite bookedRooms_spec|].
  split.
  - intros i b. rewrite bookedRooms_insert.
    unfold rooms_committed_by.
    destruct (counts_as_committed hid checkIn checkOut b) eqn:E.
    + apply counts_as_committed_query in E. unfold overlap_query in E.
      rewrite decide_True by intuition lia. lia.
    + rewrite decide_False; [lia|]. intros H.
      assert (overlap_query hid checkIn checkOut b)
        as Hq%counts_as_committed_query
        by (unfold overlap_query; intuition lia).
      congruence.
  - intros i b s. rewrite !bookedRooms_insert.
    unfold rooms_committed_by, counts_as_committed. simpl.
    rewrite !andb_false_r. simpl.
    split; [lia|]. split; [lia|].
    destruct s; simpl; rewrite ?andb_false_r; reflexivity.
Qed.

(** * Validation and pricing (steps 1 and 3 of POST /hotels/:id/book) *)

Section Pricing.

(** [Math_ceil_div a b] is the least integer [n] with [a <= n * b]. *)
Lemma Math_ceil_div_spec a b :
  0 < b →
  (Math_ceil_div a b - 1) * b < a <= Math_ceil_div a b * b.
Proof.
  intros Hb. unfold Math_ceil_div.
  pose proof (Z.div_mod (- a) b) as Hdm.
  pose proof (Z.mod_pos_bound (- a) b Hb) as Hm.
  nia.
Qed.

Lemma Math_ceil_div_unique a b n :
  0 < b → (n - 1) * b < a <= n * b → Math_ceil_div a b = n.
Proof.
  intros Hb Hn. pose proof (Math_ceil_div_spec a b Hb). nia.
Qed.

Lemma day_ms_pos : 0 < day_ms.
Proof. reflexivity. Qed.

(** Whole days are billed as they are, a started day as a full night. *)
Lemma nights_whole_days k : Math_ceil_div (k * day_ms) day_ms = k.
Proof. apply Math_ceil_div_unique; [apply day_ms_pos|]. unfold day_ms. lia. Qed.

Lemma nights_partial_day k extra :
  0 < extra < day_ms → Math_ceil_div (k * day_ms + extra) day_ms = k + 1.
Proof.
  intros H. apply Math_ceil_div_unique; [apply day_ms_pos|].
  unfold day_ms in *. lia.
Qed.

(** The handler changes the database only when steps 1 to 3 yield a price. *)
Lemma post_hotels_book_failure_keeps_db db uid hid ci co n today newId :
  (∀ nights p,
     validate_and_price db (hotels db !! hid) hid ci co n today
     ≠ Priced nights p) →
  (post_hotels_book db uid hid ci co n today newId).1 = db.
Proof.
  intros Hr. unfold post_hotels_book.
  destruct (users db !! uid) as [user|]; [|done].
  destruct (User.isAdmin user); [done|].
  destruct (validate_and_price _ _ _ _ _ _ _) eqn:E; try done.
  by destruct (Hr nights totalPrice).
Qed.
End Pricing.

(** C6. Validation fails with "Invalid dates" exactly when
    [checkIn < now] or [checkOut <= checkIn]; otherwise it fails with the
    insufficient-availability answer exactly when
    [numberOfRooms > available], and that answer carries the available
    count; otherwise it computes [nights], the ceiling of
    [(checkOut - checkIn) / 1 day], and
    [totalPrice = hotel.price * numberOfRooms * nights].  For a request of a
    registered non-admin user the handler answers accordingly, leaves the
    database unchanged on either failure, and stores a pending booking with
    that price otherwise. *)
Theorem validate_and_price_correct
    (db : Db) (hotel : Hotel.t) (hid : ObjectId) (checkIn checkOut : Date)
    (numberOfRooms : Z) (today : Date) :
  let r := validate_and_price db (Some hotel) hid checkIn checkOut
             numberOfRooms today in
  let available := availableRooms db hotel hid checkIn checkOut in
  let nights := Math_ceil_div (checkOut - checkIn) day_ms in
  let totalPrice := Hotel.price hotel * numberOfRooms * nights in
  (r = InvalidDates ↔ checkIn < today ∨ checkOut <= checkIn)
  ∧ (¬ (checkIn < today ∨ checkOut <= checkIn) →
       ((∃ a, r = OnlyAvailable a) ↔ numberOfRooms > available)
       ∧ (∀ a, r = OnlyAvailable a → a = available)
       ∧ (¬ numberOfRooms > available →
            r = Priced nights totalPrice
            ∧ (nights - 1) * day_ms < checkOut - checkIn <= nights * day_ms))
  ∧ (∀ uid user newId,
       users db !! uid = Some user → User.isAdmin user = false →
       hotels db !! hid = Some hotel →
       let out := post_hotels_book db uid hid checkIn checkOut numberOfRooms
                    today newId in
       (checkIn < today ∨ checkOut <= checkIn →
          out = (db, Send "Invalid dates"))
       ∧ (¬ (checkIn < today ∨ checkOut <= checkIn) →
          numberOfRooms > available →
          out = (db, SendOnlyRoomsAvailable available))
       ∧ (¬ (checkIn < today ∨ checkOut <= checkIn) →
          ¬ numberOfRooms > available → 1 <= numberOfRooms →
          out = (set_bookings
                   (insert newId
                      (Booking.mk hid uid checkIn checkOut numberOfRooms
                         totalPrice Booking.pending Booking.pay_pending None
                         today)) db,
                 RedirectPayment newId))).
Proof.
  intros r available nights totalPrice.
  subst r available nights totalPrice.
  split; [|split].
  - unfold validate_and_price. case_decide as Hd; [done|].
    case_decide; split; (done || tauto).
  - intros Hd. unfold validate_and_price.
    rewrite decide_False by done.
    case_decide as Hn.
    + split; [split; eauto|]. split; [by intros a [= <-]|done].
    + split; [split; [by intros [a [=]]|done]|].
      split; [by intros a [=]|].
      intros _. split; [done|]. apply Math_ceil_div_spec, day_ms_pos.
  - intros uid user newId Hu Ha Hh. simpl.
    unfold post_hotels_book. rewrite Hu, Ha, Hh.
    unfold validate_and_price.
    split; [|split].
    + intros Hd. by rewrite decide_True.
    + intros Hd Hn. by rewrite decide_False, decide_True.
    + intros Hd Hn H1. rewrite !decide_False by done.
      unfold Booking_create. simpl. by rewrite decide_True.
Qed.

(** * Cancellation (POST /bookings/:id/cancel) *)

(** C7. For a booking and its owning user: if the booking is not yet
    cancelled, cancellation succeeds exactly when
    [now + 7 days < checkInDate] and is refused with the
    cancellation-window answer otherwise, so that it succeeds exactly 8 days
    and is refused exactly 6 days before check-in; if the booking is already
    cancelled it is refused with the already-cancelled answer; every refusal
    leaves the database unchanged. *)
Theorem cancel_window_rule
    (db : Db) (uid id : ObjectId) (booking : Booking.t) (now : Date) :
  bookings db !! id = Some booking →
  Booking.user booking = uid →
  let out := post_bookings_cancel db uid id now in
  let cancelled_db :=
    set_bookings (insert id (Booking.set_status Booking.cancelled booking)) db in
  let window_closed :=
    (db, Send "Cannot cancel booking within 1 week of check-in date") in
  (Booking.status booking ≠ Booking.cancelled →
     (out = (cancelled_db, Redirect "/my-bookings")
      ↔ now + 7 * day_ms < Booking.checkInDate booking)
     ∧ (out = window_closed
        ↔ ¬ now + 7 * day_ms < Booking.checkInDate booking)
     ∧ (Booking.checkInDate booking = now + 8 * day_ms →
        out = (cancelled_db, Redirect "/my-bookings"))
     ∧ (Booking.checkInDate booking = now + 6 * day_ms →
        out = window_closed))
  ∧ (Booking.status booking = Booking.cancelled →
     out = (db, Send "Booking is already cancelled")).
Proof.
  intros Hb Hu. simpl. unfold post_bookings_cancel.
  rewrite Hb, decide_True by done.
  split.
  - intros Hs. rewrite decide_False by done.
    case_decide as Hw.
    + split; [split; [by intros [=]|lia]|].
      split; [split; [lia|done]|].
      split; [unfold day_ms in *; lia|done].
    + split; [split; [lia|done]|].
      split; [split; [by intros [=]|lia]|].
      split; [done|unfold day_ms in *; lia].
  - intros Hs. by rewrite decide_True.
Qed.

(** C10. A cancellation request touches nothing but the [status] field of
    the booking it names: payments, users, hotels, reviews and all other
    bookings are unchanged, and the named booking keeps its paymentStatus,
    totalPrice, dates, room count and payment-intent reference; when the
    request succeeds the stored booking is the old one with status
    'cancelled', so that a paid booking stays 'completed' and its Payment
    record stays 'succeeded'. *)
Theorem cancel_changes_only_status
    (db : Db) (uid id : ObjectId) (now : Date) :
  let db' := (post_bookings_cancel db uid id now).1 in
  payments db' = payments db
  ∧ users db' = users db ∧ hotels db' = hotels db ∧ reviews db' = reviews db
  ∧ (∀ j, j ≠ id → bookings db' !! j = bookings db !! j)
  ∧ (∀ b, bookings db !! id = Some b →
       ∃ b', bookings db' !! id = Some b'
         ∧ Booking.paymentStatus b' = Booking.paymentStatus b
         ∧ Booking.totalPrice b' = Booking.totalPrice b
         ∧ Booking.checkInDate b' = Booking.checkInDate b
         ∧ Booking.checkOutDate b' = Booking.checkOutDate b
         ∧ Booking.numberOfRooms b' = Booking.numberOfRooms b
         ∧ Booking.paymentIntentId b' = Booking.paymentIntentId b
         ∧ Booking.hotel b' = Booking.hotel b
         ∧ Booking.user b' = Booking.user b
         ∧ Booking.createdAt b' = Booking.createdAt b
         ∧ (Booking.user b = uid → Booking.status b ≠ Booking.cancelled →
            now + 7 * day_ms < Booking.checkInDate b →
            b' = Booking.set_status Booking.cancelled b
            ∧ (Booking.paymentStatus b = Booking.completed →
               Booking.paymentStatus b' = Booking.completed)
            ∧ (∀ k p, payments db !! k = Some p →
               Payment.status p = Payment.succeeded →
               payments db' !! k = Some p))).
Proof.
  simpl. unfold post_bookings_cancel.
  destruct (bookings db !! id) as [booking|] eqn:Hb; simpl.
  { case_decide as Hu; [case_decide as Hs; [|case_decide as Hw]|]; simpl.
    all: do 4 (split; [done|]).
    all: split; [intros j Hj; by rewrite ?lookup_insert_ne|].
    all: intros b [= <-]; eexists.
    all: rewrite ?lookup_insert_eq.
    all: split; [done|]; do 9 (split; [done|]).
    all: intros Hu' Hs' Hw'; try done; lia. }
  do 5 (split; [done|]). by intros b [=].
Qed.

(** * Payment confirmation (POST /webhook/stripe, GET /payment-success) *)

Section FirstMatch.
Context {A : Type}.
Implicit Types (filter : A → bool) (update : A → A) (docs : list A).

Lemma findOneAndUpdate_length filter update docs :
  length (findOneAndUpdate filter update docs) = length docs.
Proof.
  induction docs as [|d docs IH]; simpl; [done|].
  destruct (filter d); simpl; congruence.
Qed.

(** No matching document: nothing is written. *)
Lemma findOneAndUpdate_none filter update docs :
  Forall (λ d, filter d = false) docs →
  findOneAndUpdate filter update docs = docs.
Proof.
  induction 1 as [|d docs Hd _ IH]; simpl; [done|].
  by rewrite Hd, IH.
Qed.

(** An update that keeps the filter's verdict and is itself idempotent
    hits the same document again and changes nothing the second time. *)
Lemma findOneAndUpdate_idemp filter update docs :
  (∀ d, filter (update d) = filter d) →
  (∀ d, update (update d) = update d) →
  findOneAndUpdate filter update (findOneAndUpdate filter update docs)
  = findOneAndUpdate filter update docs.
Proof.
  intros Hf Hu.
  induction docs as [|d docs IH]; simpl; [done|].
  destruct (filter d) eqn:E; simpl.
  - by rewrite Hf, E, Hu.
  - by rewrite E, IH.
Qed.

End FirstMatch.

Lemma mark_confirmed_idemp b : mark_confirmed (mark_confirmed b) = mark_confirmed b.
Proof. reflexivity. Qed.

Lemma alter_mark_confirmed_idemp (bs : gmap N Booking.t) id :
  alter mark_confirmed id (alter mark_confirmed id bs)
  = alter mark_confirmed id bs.
Proof.
  apply map_eq. intros j. destruct (decide (id = j)) as [<-|Hne].
  - rewrite !lookup_alter_eq. by destruct (bs !! id).
  - by rewrite !lookup_alter_ne.
Qed.

Lemma alter_mark_confirmed_insert (bs : gmap N Booking.t) id b :
  bs !! id = Some b →
  alter mark_confirmed id bs = <[id := mark_confirmed b]> bs.
Proof.
  intros Hb. apply map_eq. intros j. destruct (decide (id = j)) as [<-|Hne].
  - by rewrite lookup_alter_eq, lookup_insert_eq, Hb.
  - by rewrite lookup_alter_ne, lookup_insert_ne.
Qed.

(** The success page needs nothing from the processor: the owner's request
    alone confirms the booking and marks its oldest Payment record. *)
Lemma get_payment_success_owner db uid id b :
  bookings db !! id = Some b → Booking.user b = uid →
  get_payment_success db uid (Some id)
  = (set_payments
       (findOneAndUpdate (λ p, bool_decide (Payment.booking p = id))
          (Payment.set_status Payment.succeeded))
       (set_bookings (insert id (mark_confirmed b)) db),
     Redirect "/my-bookings?payment=success").
Proof.
  intros Hb Hu. unfold get_payment_success. by rewrite Hb, decide_True.
Qed.

(** The ownership check of the success page: any other user's request, and
    any request for an unknown booking, changes nothing. *)
Lemma get_payment_success_not_owner db uid q :
  (∀ id b, q = Some id → bookings db !! id = Some b → Booking.user b ≠ uid) →
  get_payment_success db uid q = (db, Redirect "/my-bookings").
Proof.
  intros H. unfold get_payment_success.
  destruct q as [id|]; [|done].
  destruct (bookings db !! id) as [b|] eqn:Hb; [|done].
  rewrite decide_False; [done|]. by eapply H.
Qed.

(** Repeating the owner's success-page request changes nothing more. *)
Lemma get_payment_success_idemp db uid q :
  (get_payment_success (get_payment_success db uid q).1 uid q).1
  = (get_payment_success db uid q).1.
Proof.
  unfold get_payment_success at 2 3.
  destruct q as [id|]; [|done].
  destruct (bookings db !! id) as [b|] eqn:Hb; simpl;
    [|by unfold get_payment_success; rewrite Hb].
  case_decide as Hu; simpl;
    [|by unfold get_payment_success; rewrite Hb, decide_False].
  unfold get_payment_success. simpl.
  rewrite lookup_insert_eq. simpl. rewrite decide_True by done. simpl.
  unfold set_payments, set_bookings. simpl. f_equal.
  - by rewrite insert_insert_eq.
  - by apply findOneAndUpdate_idemp.
Qed.

(** As mounted, the webhook route answers 400 to every call and writes
    nothing, whatever the library's check would say of the raw payload:
    the handler is handed a parsed object. *)
Lemma webhook_route_rejects verify secret db raw sig :
  webhook_route verify secret db raw sig = (db, Status 400 "Webhook Error").
Proof. reflexivity. Qed.

(** With the route's parser first the handler gets the library's answer. *)
Lemma webhook_route_raw_first_verifies verify secret db raw sig :
  webhook_route_raw_first verify secret db raw sig
  = post_webhook_stripe (λ _, verify raw) secret db raw sig.
Proof. reflexivity. Qed.

Section WebhookFacts.
Variable constructEvent : string → string → string → option Stripe.Event.
Variable STRIPE_WEBHOOK_SECRET : string.

Local Abbreviation webhook :=
  (post_webhook_stripe constructEvent STRIPE_WEBHOOK_SECRET).

(** What a verified success event does. *)
Lemma webhook_succeeded db body sig event :
  constructEvent body sig STRIPE_WEBHOOK_SECRET = Some event →
  Stripe.type event = "payment_intent.succeeded" →
  webhook db body sig
  = (set_payments
       (findOneAndUpdate
          (λ p, bool_decide
                  (Payment.paymentIntentId p
                   = Stripe.id (Stripe.data_object event)))
          (Payment.set_status Payment.succeeded))
       (set_bookings
          (alter mark_confirmed
             (Stripe.metadata_bookingId (Stripe.data_object event))) db),
     Json "{received: true}").
Proof.
  intros He Ht. unfold post_webhook_stripe. by rewrite He, decide_True.
Qed.

(** The webhook changes the database only for a verified
    [payment_intent.succeeded] event. *)
Lemma webhook_changes_only_on_success db body sig :
  (webhook db body sig).1 ≠ db →
  ∃ event, constructEvent body sig STRIPE_WEBHOOK_SECRET = Some event
           ∧ Stripe.type event = "payment_intent.succeeded".
Proof.
  unfold post_webhook_stripe.
  destruct (constructEvent _ _ _) as [event|]; [|done].
  case_decide; [eauto|done].
Qed.

(** Delivering the same event to the webhook again changes nothing more. *)
Lemma webhook_idemp db body sig :
  (webhook (webhook db body sig).1 body sig).1 = (webhook db body sig).1.
Proof.
  unfold post_webhook_stripe.
  destruct (constructEvent _ _ _) as [event|]; [|done].
  case_decide; [|done]. simpl.
  unfold set_payments, set_bookings. simpl. f_equal.
  - apply alter_mark_confirmed_idemp.
  - by apply findOneAndUpdate_idemp.
Qed.


(** C8. A callback whose signature fails verification is answered with
    status 400 and applies nothing: the database, with every booking and
    every Payment record, is the one before the call; conversely a call
    that is not rejected carried a verified event. *)
Theorem webhook_rejects_unverified_event (db : Db) (body sig : string) :
  (constructEvent body sig STRIPE_WEBHOOK_SECRET = None →
     webhook db body sig = (db, Status 400 "Webhook Error")
     ∧ bookings (webhook db body sig).1 = bookings db
     ∧ payments (webhook db body sig).1 = payments db)
  ∧ ((webhook db body sig).2 ≠ Status 400 "Webhook Error" →
     is_Some (constructEvent body sig STRIPE_WEBHOOK_SECRET)).
Proof.
  unfold post_webhook_stripe. split.
  - by intros ->.
  - destruct (constructEvent _ _ _) as [event|]; [by eexists|done].
Qed.

(** C2, as the code has it.  A cancelled booking stays exactly as it is
    under every cancellation request, under every call of the webhook route
    as mounted, under every call of the webhook handler that is rejected,
    carries another event type or names another booking, and under every
    success-page request that is not its owner's request for it.  Neither
    confirmation path reads the current status: the owner's success-page
    request for the booking sets it to confirmed and completed, and so does
    the webhook handler on a verified [payment_intent.succeeded] event that
    names the booking. *)
Theorem cancelled_left_only_by_confirmation
    (db : Db) (id : ObjectId) (b : Booking.t) :
  bookings db !! id = Some b →
  Booking.status b = Booking.cancelled →
  (∀ uid j now, bookings (post_bookings_cancel db uid j now).1 !! id = Some b)
  ∧ (∀ body sig,
       (∀ event,
          constructEvent body sig STRIPE_WEBHOOK_SECRET = Some event →
          Stripe.type event = "payment_intent.succeeded" →
          Stripe.metadata_bookingId (Stripe.data_object event) ≠ id) →
       bookings (webhook db body sig).1 !! id = Some b)
  ∧ (∀ uid q, (q = Some id → uid ≠ Booking.user b) →
       bookings (get_payment_success db uid q).1 !! id = Some b)
  ∧ (∀ body sig event,
       constructEvent body sig STRIPE_WEBHOOK_SECRET = Some event →
       Stripe.type event = "payment_intent.succeeded" →
       Stripe.metadata_bookingId (Stripe.data_object event) = id →
       bookings (webhook db body sig).1 !! id = Some (mark_confirmed b))
  ∧ (∀ verify raw sig,
       bookings (webhook_route verify STRIPE_WEBHOOK_SECRET db raw sig).1 !! id
       = Some b)
  ∧ bookings (get_payment_success db (Booking.user b) (Some id)).1 !! id
    = Some (mark_confirmed b).
Proof.
  intros Hb Hs. split; [|split; [|split; [|split; [|split]]]].
  - intros uid j now. unfold post_bookings_cancel.
    destruct (bookings db !! j) as [bj|] eqn:Hj; [|done].
    case_decide; [|done].
    case_decide as Hsj; [done|].
    case_decide; [done|]. simpl.
    rewrite lookup_insert_ne; [done|]. intros ->. congruence.
  - intros body sig Hev. unfold post_webhook_stripe.
    destruct (constructEvent _ _ _) as [event|]; [|done].
    case_decide as Ht; [|done]. simpl.
    rewrite lookup_alter_ne; [done|]. by apply Hev.
  - intros uid q Hq. unfold get_payment_success.
    destruct q as [j|]; [|done].
    destruct (bookings db !! j) as [bj|] eqn:Hj; [|done].
    case_decide as Hu; [|done]. simpl.
    rewrite lookup_insert_ne; [done|]. intros ->.
    apply (Hq eq_refl). congruence.
  - intros body sig event He Ht Hid.
    rewrite (webhook_succeeded _ _ _ _ He Ht). simpl.
    rewrite Hid, lookup_alter_eq, Hb. done.
  - intros verify raw sig. by rewrite webhook_route_rejects.
  - rewrite (get_payment_success_owner _ _ _ _ Hb eq_refl). simpl.
    by rewrite lookup_insert_eq.
Qed.
End WebhookFacts.

(** The review routes never write a booking. *)
Lemma recalculateHotelRating_bookings hid db :
  bookings (recalculateHotelRating hid db) = bookings db.
Proof. unfold recalculateHotelRating. by destruct (hotels db !! hid). Qed.

Lemma review_route_bookings db req :
  bookings (review_route db req).1 = bookings db.
Proof.
  destruct req as [uid hid text rating newId|uid hid rid text rating
                  |uid hid rid]; simpl.
  - unfold post_hotels_reviews.
    destruct (hotels db !! hid), (users db !! uid) as [user|]; try done.
    case_decide; [done|]. destruct (User.isAdmin user); [done|].
    destruct (negb _); [done|]. destruct (bool_decide _); [done|].
    simpl. by rewrite recalculateHotelRating_bookings.
  - unfold put_hotels_reviews. destruct (reviews db !! rid); [|done].
    case_decide; [|done]. simpl. by rewrite recalculateHotelRating_bookings.
  - unfold delete_hotels_reviews. destruct (reviews db !! rid); [|done].
    case_decide; [|done]. simpl. by rewrite recalculateHotelRating_bookings.
Qed.

(** How a booking can become confirmed in one request: through the webhook,
    on a verified [payment_intent.succeeded] event that names it, or through
    the success page, on its owner's request. *)
Lemma confirmation_sources
    (constructEvent : string → string → string → option Stripe.Event)
    (secret : string) (db : Db) (req : Request) (id : ObjectId)
    (b b' : Booking.t) :
  bookings db !! id = Some b →
  Booking.status b ≠ Booking.confirmed →
  bookings (handle constructEvent secret db req).1 !! id = Some b' →
  Booking.status b' = Booking.confirmed →
  (∃ body sig event,
     req = Webhook body sig
     ∧ constructEvent body sig secret = Some event
     ∧ Stripe.type event = "payment_intent.succeeded"
     ∧ Stripe.metadata_bookingId (Stripe.data_object event) = id)
  ∨ req = SuccessPage (Booking.user b) (Some id).
Proof.
  intros Hb Hs.
  destruct req as [uid hid ci co n today newId|uid j created now|body sig
                  |uid q|uid j now|req]; simpl.
  - unfold post_hotels_book.
    destruct (users db !! uid) as [user|]; [|simpl; intros; congruence].
    destruct (User.isAdmin user); [simpl; intros; congruence|].
    destruct (validate_and_price _ _ _ _ _ _ _); try (simpl; intros; congruence).
    unfold Booking_create. simpl. case_decide; [|simpl; intros; congruence]. simpl.
    rewrite lookup_insert. case_decide; [by intros [= <-]|simpl; intros; congruence].
  - unfold post_bookings_payment.
    destruct (bookings db !! j) as [bj|] eqn:Hj; [|simpl; intros; congruence].
    destruct (users db !! _); [|simpl; intros; congruence].
    case_decide; [|simpl; intros; congruence].
    destruct created as [[intentId clientSecret]|]; [|simpl; intros; congruence]. simpl.
    rewrite lookup_insert. case_decide; [|simpl; intros; congruence].
    intros [= <-]. simpl. simpl; intros; congruence.
  - unfold post_webhook_stripe.
    destruct (constructEvent body sig secret) as [event|] eqn:He;
      [|simpl; intros; congruence].
    case_decide as Ht; [|simpl; intros; congruence]. simpl.
    destruct (decide (Stripe.metadata_bookingId (Stripe.data_object event)
                      = id)) as [Hid|Hid].
    + intros _ _. left. by exists body, sig, event.
    + rewrite lookup_alter_ne by done. simpl; intros; congruence.
  - unfold get_payment_success.
    destruct q as [j|]; [|simpl; intros; congruence].
    destruct (bookings db !! j) as [bj|] eqn:Hj; [|simpl; intros; congruence].
    case_decide as Hu; [|simpl; intros; congruence]. simpl.
    destruct (decide (j = id)) as [->|Hne].
    + intros _ _. right. congruence.
    + rewrite lookup_insert_ne by done. simpl; intros; congruence.
  - unfold post_bookings_cancel.
    destruct (bookings db !! j) as [bj|] eqn:Hj; [|simpl; intros; congruence].
    case_decide; [|simpl; intros; congruence]. case_decide; [simpl; intros; congruence|].
    case_decide; [simpl; intros; congruence|]. simpl.
    rewrite lookup_insert. case_decide; [by intros [= <-]|simpl; intros; congruence].
  - rewrite review_route_bookings. simpl; intros; congruence.
Qed.

(** * Ratings (review routes, recalculateHotelRating) *)

Section Ratings.
Implicit Types (db : Db) (rs : list Review.t) (h : Hotel.t).

Lemma foldl_rating_acc rs (a : Z) :
  foldl (λ acc next, acc + Review.rating next) a rs = a + rating_sum rs.
Proof.
  unfold rating_sum. revert a.
  induction rs as [|r rs IH]; intros a; simpl; [lia|].
  rewrite (IH (a + _)), (IH (0 + _)). lia.
Qed.

Lemma rating_sum_cons r rs :
  rating_sum (r :: rs) = Review.rating r + rating_sum rs.
Proof. unfold rating_sum at 1. simpl. rewrite foldl_rating_acc. lia. Qed.

Lemma rating_sum_bounds rs :
  Forall (λ r, 1 <= Review.rating r <= 5) rs →
  Z.of_nat (length rs) <= rating_sum rs <= 5 * Z.of_nat (length rs).
Proof.
  induction 1 as [|r rs Hr _ IH]; [done|].
  rewrite rating_sum_cons. simpl length. lia.
Qed.

(** With every rating in [1,5] the average is in [0,5]. *)
Lemma average_in_range rs :
  Forall (λ r, 1 <= Review.rating r <= 5) rs →
  (0 <= average rs)%Q ∧ (average rs <= 5)%Q.
Proof.
  intros Hrs. pose proof (rating_sum_bounds rs Hrs) as Hb.
  unfold average. case_decide as Hlen; [|done].
  assert (0 < inject_Z (Z.of_nat (length rs)))%Q as Hpos.
  { change 0%Q with (inject_Z 0). rewrite <- Zlt_Qlt. lia. }
  split.
  - apply Qle_shift_div_l; [done|].
    rewrite Qmult_0_l. change 0%Q with (inject_Z 0).
    rewrite <- Zle_Qle. lia.
  - apply Qle_shift_div_r; [done|].
    change 5%Q with (inject_Z 5).
    rewrite <- inject_Z_mult, <- Zle_Qle. lia.
Qed.

Lemma populate_reviews_ext db1 db2 h1 h2 :
  Hotel.reviews h1 = Hotel.reviews h2 →
  (∀ rid, rid ∈ Hotel.reviews h1 → reviews db1 !! rid = reviews db2 !! rid) →
  populate_reviews db1 h1 = populate_reviews db2 h2.
Proof.
  unfold populate_reviews. intros <- Hl.
  apply list_omap_ext, Forall2_same_length_lookup_2; [done|].
  intros i rid rid' Hi Hi'. simplify_eq.
  apply Hl. by eapply list_elem_of_lookup_2.
Qed.

Lemma populate_reviews_in_range db h :
  ratings_in_range db →
  Forall (λ r, 1 <= Review.rating r <= 5) (populate_reviews db h).
Proof.
  intros Hr. apply Forall_forall. intros r Hin.
  apply list_elem_of_omap in Hin as (rid & _ & Hrid).
  by apply (Hr rid).
Qed.

(** Recomputing the average of hotel [hid] in a state [mid] re-establishes
    the three invariants, provided they held in a state [db] from which
    [mid] differs, as far as the other hotels can see, in nothing. *)
Lemma recalculate_reestablishes db mid hid :
  ratings_in_range db → averages_in_range db → averages_current db →
  ratings_in_range mid →
  (∀ hid' h', hid' ≠ hid → hotels mid !! hid' = Some h' →
     hotels db !! hid' = Some h'
     ∧ populate_reviews mid h' = populate_reviews db h') →
  let db' := recalculateHotelRating hid mid in
  ratings_in_range db' ∧ averages_in_range db' ∧ averages_current db'.
Proof.
  intros Hr Ha Hc Hrm Hothers. simpl.
  assert (Hmid :
    ∀ hid' h', hid' ≠ hid → hotels mid !! hid' = Some h' →
      ((0 <= Hotel.averageRating h')%Q ∧ (Hotel.averageRating h' <= 5)%Q)
      ∧ (Hotel.averageRating h' == average (populate_reviews mid h'))%Q).
  { intros hid' h' Hne Hh'. destruct (Hothers hid' h' Hne Hh') as [Hdb ->].
    split; [by apply (Ha hid')|by apply (Hc hid')]. }
  unfold recalculateHotelRating.
  destruct (hotels mid !! hid) as [hotel|] eqn:Hh.
  - split; [done|]. split.
    + intros hid' h'. simpl. rewrite lookup_insert.
      case_decide as Hd; [intros [= <-]|intros Hh'].
      * simpl. by apply average_in_range, populate_reviews_in_range.
      * apply (Hmid hid' h'); [congruence|done].
    + intros hid' h'. simpl. rewrite lookup_insert.
      case_decide as Hd; [intros [= <-]|intros Hh'].
      * simpl. by erewrite populate_reviews_ext.
      * destruct (Hmid hid' h') as [_ ->]; [congruence|done|].
        by erewrite populate_reviews_ext.
  - split; [done|]. split.
    + intros hid' h' Hh'. apply (Hmid hid' h'); [congruence|done].
    + intros hid' h' Hh'. apply (Hmid hid' h'); [congruence|done].
Qed.

Lemma listed_only_by_elsewhere db rid hid hid' h' :
  listed_only_by db rid hid → hotels db !! hid' = Some h' → hid' ≠ hid →
  rid ∉ Hotel.reviews h'.
Proof. intros Hl Hh' Hne Hin. by apply Hne, (Hl hid' h'). Qed.
End Ratings.

(** C9, as the code has it.  The review routes do not check the submitted
    rating.  When the submitted rating is from 1 to 5 and the request names
    a review through the hotel that lists it, creating, updating and
    deleting a review preserve: every stored rating is in [1,5], every
    hotel's averageRating is in [0,5], and every hotel's averageRating
    equals the sum of its current reviews' ratings divided by their count,
    or 0 without reviews. *)
Theorem review_routes_preserve_rating_invariants
    (db : Db) (req : ReviewRequest) :
  ratings_in_range db → averages_in_range db → averages_current db →
  request_in_range db req →
  let db' := (review_route db req).1 in
  ratings_in_range db' ∧ averages_in_range db' ∧ averages_current db'.
Proof.
  intros Hr Ha Hc Hreq. simpl.
  destruct req as [uid hid text rating newId|uid hid rid text rating
                  |uid hid rid]; simpl in *.
  - destruct Hreq as (Hrating & Hfresh & Hlisted).
    unfold post_hotels_reviews.
    destruct (hotels db !! hid) as [hotel|] eqn:Hh; [|done].
    destruct (users db !! uid) as [user|]; [|done].
    case_decide; [done|].
    destruct (User.isAdmin user); [done|].
    destruct (negb _); [done|].
    destruct (bool_decide _); [done|]. simpl.
    apply (recalculate_reestablishes db); try done.
    + intros rid r. simpl. rewrite lookup_insert.
      case_decide; [by intros [= <-]|apply Hr].
    + intros hid' h' Hne. simpl. rewrite lookup_insert_ne by done.
      intros Hh'. split; [done|].
      apply populate_reviews_ext; [done|]. intros rid Hin. simpl.
      rewrite lookup_insert_ne; [done|]. intros <-.
      by eapply listed_only_by_elsewhere.
  - destruct Hreq as (Hrating & Hlisted).
    unfold put_hotels_reviews.
    destruct (reviews db !! rid) as [review|] eqn:Hrev; [|done].
    case_decide; [|done]. simpl.
    apply (recalculate_reestablishes db); try done.
    + intros rid' r. simpl. rewrite lookup_alter.
      case_decide; [|apply Hr].
      rewrite Hrev. by intros [= <-].
    + intros hid' h' Hne. simpl. intros Hh'. split; [done|].
      apply populate_reviews_ext; [done|]. intros rid' Hin. simpl.
      rewrite lookup_alter_ne; [done|]. intros <-.
      by eapply listed_only_by_elsewhere.
  - unfold delete_hotels_reviews.
    destruct (reviews db !! rid) as [review|] eqn:Hrev; [|done].
    case_decide; [|done]. simpl.
    apply (recalculate_reestablishes db); try done.
    + intros rid' r. simpl. rewrite lookup_delete.
      case_decide; [done|apply Hr].
    + intros hid' h' Hne. simpl. rewrite lookup_alter_ne by done.
      intros Hh'. split; [done|].
      apply populate_reviews_ext; [done|]. intros rid' Hin. simpl.
      rewrite lookup_delete_ne; [done|]. intros <-.
      by eapply listed_only_by_elsewhere.
Qed.

(** * Evaluations on the concrete run *)

Lemma db_retry_state :
  booking_state db_retry 100 = Some (Booking.pending, Booking.pay_pending)
  ∧ payment_statuses db_retry = [Payment.pending; Payment.pending]
  ∧ Payment.paymentIntentId <$> payments db_retry = ["pi_1"; "pi_2"].
Proof. vm_compute. done. Qed.

(** Pricing example of the specification: 100 a night, 2 rooms, day 1 to
    day 4 is 3 nights and 600. *)
Example pricing_three_nights :
  validate_and_price db0 (Some inn) 10 (day 1) (day 4) 2 (day 1)
  = Priced 3 600.
Proof. reflexivity. Qed.

(** A stay that ends in the middle of the fourth day is billed 4 nights. *)
Example pricing_started_day :
  validate_and_price db0 (Some inn) 10 (day 1) (day 4 + 12 * 3600000) 2 (day 1)
  = Priced 4 800.
Proof. reflexivity. Qed.

(** Rating examples of the specification: a 5-star and a 3-star review
    average 4, the 3-star one alone 3, no review 0. *)
Example average_examples :
  (average [Review.mk "a" 5 1 "x"; Review.mk "b" 3 2 "y"] == 4)%Q
  ∧ (average [Review.mk "b" 3 2 "y"] == 3)%Q
  ∧ (average [] == 0)%Q.
Proof. by vm_compute. Qed.

(** C1.  The booking of the run is pending and unpaid, and no event of the
    processor has been handled; the owner's request of the success page
    alone makes it confirmed and completed and marks its Payment record
    succeeded. *)
Theorem success_page_confirms_unpaid_booking :
  booking_state db_intent 100 = Some (Booking.pending, Booking.pay_pending)
  ∧ payment_statuses db_intent = [Payment.pending]
  ∧ booking_state (get_payment_success db_intent 1 (Some 100%N)).1 100
    = Some (Booking.confirmed, Booking.completed)
  ∧ payment_statuses (get_payment_success db_intent 1 (Some 100%N)).1
    = [Payment.succeeded].
Proof. vm_compute. done. Qed.

(** C2 fails as stated: the guest cancels the booking of the run and then
    requests the success page for it; the cancelled booking becomes
    confirmed and completed.  No webhook call is involved. *)
Lemma cancelled_booking_confirmed_by_success_page :
  booking_state db_cancelled 100
  = Some (Booking.cancelled, Booking.pay_pending)
  ∧ booking_state (get_payment_success db_cancelled 1 (Some 100%N)).1 100
    = Some (Booking.confirmed, Booking.completed).
Proof. vm_compute. done. Qed.

Lemma cancelled_left_only_by_confirmation_witness :
  bookings db_cancelled !! 100%N
  = Some (Booking.mk 10 1 (day 10) (day 13) 2 600 Booking.cancelled
            Booking.pay_pending (Some "pi_1") (day 1))
  ∧ bookings (post_bookings_cancel db_cancelled 1 100 (day 2)).1 !! 100%N
    = bookings db_cancelled !! 100%N
  ∧ bookings (webhook_route demo_constructEvent "whsec" db_cancelled
                "pi_1" "whsec").1 !! 100%N
    = bookings db_cancelled !! 100%N
  ∧ booking_state (get_payment_success db_cancelled 1 (Some 100%N)).1 100
    = Some (Booking.confirmed, Booking.completed).
Proof.
  assert (Hb : bookings db_cancelled !! 100%N
               = Some (Booking.mk 10 1 (day 10) (day 13) 2 600
                         Booking.cancelled Booking.pay_pending (Some "pi_1")
                         (day 1))) by (vm_compute; reflexivity).
  destruct (cancelled_left_only_by_confirmation (λ _ _ _, None) "whsec"
              db_cancelled 100%N _ Hb eq_refl)
    as (Hcancel & _ & _ & _ & Hroute & Hpage).
  split; [exact Hb|]. split; [|split].
  - rewrite Hcancel. symmetry. exact Hb.
  - rewrite Hroute. symmetry. exact Hb.
  - unfold booking_state.
    etrans; [exact (f_equal (fmap _) Hpage)|]. reflexivity.
Defined.




(** C4.  The two paths do not converge, because the webhook route as
    mounted confirms nothing.  On the pending, unpaid booking of the run,
    whatever payload and signature arrive and whatever the library's check
    would say of them, the route answers 400 and leaves the booking pending
    with its Payment record pending; the owner's success-page request on
    the same database leaves it confirmed and completed with the record
    succeeded.  The success page does check that the requesting user owns
    the booking, and with the route's parser first the handler would be
    given the library's answer. *)
Theorem webhook_route_never_confirms
    (verify : string → string → string → option Stripe.Event)
    (secret raw sig : string) :
  booking_state db_intent 100 = Some (Booking.pending, Booking.pay_pending)
  ∧ payment_statuses db_intent = [Payment.pending]
  ∧ webhook_route verify secret db_intent raw sig
    = (db_intent, Status 400 "Webhook Error")
  ∧ booking_state (webhook_route verify secret db_intent raw sig).1 100
    = Some (Booking.pending, Booking.pay_pending)
  ∧ payment_statuses (webhook_route verify secret db_intent raw sig).1
    = [Payment.pending]
  ∧ booking_state (get_payment_success db_intent 1 (Some 100%N)).1 100
    = Some (Booking.confirmed, Booking.completed)
  ∧ payment_statuses (get_payment_success db_intent 1 (Some 100%N)).1
    = [Payment.succeeded]
  ∧ (get_payment_success db_intent 2 (Some 100%N)).1 = db_intent
  ∧ webhook_route_raw_first verify secret db_intent raw sig
    = post_webhook_stripe (λ _, verify raw) secret db_intent raw sig.
Proof.
  rewrite !webhook_route_rejects.
  do 2 (split; [by vm_compute|]). split; [done|].
  do 5 (split; [by vm_compute|]).
  apply webhook_route_raw_first_verifies.
Qed.

Lemma db_webhook_invariants :
  ratings_in_range db_webhook ∧ averages_in_range db_webhook
  ∧ averages_current db_webhook.
Proof.
  split; [|split]; by_evaluation.
Qed.

(** C9 fails as stated.  From a state in which all three invariants hold, a
    review submitted with rating 10 is stored as it is and lifts the
    hotel's average to 10; and an update of rating 5 to rating 1 sent
    through another hotel's URL leaves the average of the hotel that lists
    the review at 5. *)
Lemma unchecked_rating_leaves_range :
  (let db' := (review_route db_webhook
                 (CreateReview 1 10 "Ten stars" 10 500)).1 in
   ¬ ratings_in_range db' ∧ ¬ averages_in_range db')
  ∧ (let db' := (review_route db_reviewed
                   (UpdateReview 1 11 500 "Changed my mind" 1)).1 in
     ratings_in_range db_reviewed ∧ averages_current db_reviewed
     ∧ ratings_in_range db' ∧ ¬ averages_current db').
Proof.
  simpl. split; [split|split; [|split; [|split]]].
  all: by_evaluation.
Qed.

Lemma review_routes_preserve_rating_invariants_witness :
  request_in_range db_webhook (CreateReview 1 10 "Lovely stay" 5 500)
  ∧ ratings_in_range db_reviewed ∧ averages_in_range db_reviewed
  ∧ averages_current db_reviewed.
Proof.
  assert (Hreq : request_in_range db_webhook
                   (CreateReview 1 10 "Lovely stay" 5 500)).
  { split; [lia|]. split; [reflexivity|by_evaluation]. }
  split; [exact Hreq|].
  destruct db_webhook_invariants as (Hr & Ha & Hc).
  exact (review_routes_preserve_rating_invariants db_webhook
           (CreateReview 1 10 "Lovely stay" 5 500) Hr Ha Hc Hreq).
Defined.

Lemma validate_and_price_correct_witness :
  users db0 !! 1%N = Some guest ∧ User.isAdmin guest = false
  ∧ hotels db0 !! 10%N = Some inn
  ∧ ¬ (day 10 < day 1 ∨ day 13 <= day 10)
  ∧ ¬ 2 > availableRooms db0 inn 10 (day 10) (day 13)
  ∧ post_hotels_book db0 1 10 (day 10) (day 13) 2 (day 1) 100
    = (set_bookings
         (insert 100%N
            (Booking.mk 10 1 (day 10) (day 13) 2 600 Booking.pending
               Booking.pay_pending None (day 1))) db0,
       RedirectPayment 100).
Proof.
  assert (Hd : ¬ (day 10 < day 1 ∨ day 13 <= day 10))
    by (unfold day, day_ms; lia).
  assert (Hn : ¬ 2 > availableRooms db0 inn 10 (day 10) (day 13))
    by (vm_compute; discriminate).
  destruct (validate_and_price_correct db0 inn 10 (day 10) (day 13) 2 (day 1))
    as (_ & _ & Hhandler).
  destruct (Hhandler 1%N guest 100%N eq_refl eq_refl eq_refl)
    as (_ & _ & Hok).
  do 3 (split; [reflexivity|]). split; [exact Hd|]. split; [exact Hn|].
  apply (Hok Hd Hn). lia.
Defined.

Lemma cancel_window_rule_witness :
  bookings db_intent !! 100%N = Some booking_100
  ∧ Booking.user booking_100 = 1%N
  ∧ post_bookings_cancel db_intent 1 100 (day 2)
    = (set_bookings
         (insert 100%N (Booking.set_status Booking.cancelled booking_100))
         db_intent,
       Redirect "/my-bookings")
  ∧ post_bookings_cancel db_intent 1 100 (day 4)
    = (db_intent,
       Send "Cannot cancel booking within 1 week of check-in date").
Proof.
  assert (Hb : bookings db_intent !! 100%N = Some booking_100)
    by (vm_compute; reflexivity).
  split; [exact Hb|]. split; [reflexivity|]. split.
  - destruct (cancel_window_rule db_intent 1 100 booking_100 (day 2)
                Hb eq_refl) as (Hopen & _).
    destruct Hopen as (_ & _ & H8 & _); [discriminate|].
    apply H8. reflexivity.
  - destruct (cancel_window_rule db_intent 1 100 booking_100 (day 4)
                Hb eq_refl) as (Hopen & _).
    destruct Hopen as (_ & _ & _ & H6); [discriminate|].
    apply H6. reflexivity.
Defined.

Lemma cancel_changes_only_status_witness :
  bookings db_paid !! 100%N = Some (mark_confirmed booking_100)
  ∧ payment_statuses db_paid = [Payment.succeeded]
  ∧ booking_state (post_bookings_cancel db_paid 1 100 (day 2)).1 100
    = Some (Booking.cancelled, Booking.completed)
  ∧ payments (post_bookings_cancel db_paid 1 100 (day 2)).1 = payments db_paid.
Proof.
  assert (Hb : bookings db_paid !! 100%N = Some (mark_confirmed booking_100))
    by (vm_compute; reflexivity).
  destruct (cancel_changes_only_status db_paid 1 100 (day 2))
    as (Hpay & _ & _ & _ & _ & Hbooking).
  destruct (Hbooking _ Hb) as (b' & Hb' & Hrest).
  do 9 (destruct Hrest as (_ & Hrest)).
  destruct Hrest as (-> & _); [reflexivity|discriminate|reflexivity|].
  split; [exact Hb|]. split; [reflexivity|]. split; [|exact Hpay].
  unfold booking_state. rewrite Hb'. reflexivity.
Defined.

Lemma webhook_rejects_unverified_event_witness :
  demo_constructEvent "pi_1" "forged" "whsec" = None
  ∧ post_webhook_stripe demo_constructEvent "whsec" db_intent "pi_1" "forged"
    = (db_intent, Status 400 "Webhook Error").
Proof.
  split; [reflexivity|].
  destruct (webhook_rejects_unverified_event demo_constructEvent "whsec"
              db_intent "pi_1" "forged") as (Hclosed & _).
  apply Hclosed. reflexivity.
Defined.

(** * Further properties of the routes *)

(** ** Payment records *)

Section FirstMatchMore.
Context {A : Type}.
Implicit Types (filter : A → bool) (update : A → A) (docs : list A).

Lemma findOneAndUpdate_ext filter1 filter2 update docs :
  Forall (λ d, filter1 d = filter2 d) docs →
  findOneAndUpdate filter1 update docs = findOneAndUpdate filter2 update docs.
Proof.
  induction 1 as [|d docs Hd _ IH]; simpl; [done|].
  rewrite Hd. destruct (filter2 d); [done|]. by rewrite IH.
Qed.

(** Every position keeps its document or holds its updated version. *)
Lemma findOneAndUpdate_lookup filter update docs k d :
  docs !! k = Some d →
  findOneAndUpdate filter update docs !! k = Some d
  ∨ findOneAndUpdate filter update docs !! k = Some (update d).
Proof.
  revert k. induction docs as [|d0 docs IH]; intros k Hk; [done|]. simpl.
  destruct (filter d0).
  - destruct k as [|k]; simpl in *; [right; congruence|by left].
  - destruct k as [|k]; simpl in *; [by left|by apply IH].
Qed.

(** At most one position changes. *)
Lemma findOneAndUpdate_one_change filter update docs k1 k2 d1 d2 :
  docs !! k1 = Some d1 → docs !! k2 = Some d2 →
  findOneAndUpdate filter update docs !! k1 ≠ Some d1 →
  findOneAndUpdate filter update docs !! k2 ≠ Some d2 →
  k1 = k2.
Proof.
  revert k1 k2. induction docs as [|d0 docs IH]; intros k1 k2; [done|].
  simpl. destruct (filter d0).
  - destruct k1 as [|k1], k2 as [|k2]; simpl; try done.
  - destruct k1 as [|k1], k2 as [|k2]; simpl; try done.
    intros. f_equal. by apply IH.
Qed.
End FirstMatchMore.

(** X1. Redelivery of a webhook call is absorbed: handling the same payload
    and signature a second time leaves the database as the first handling
    left it and gives the same answer. *)
Theorem webhook_redelivery_absorbed
    (constructEvent : string → string → string → option Stripe.Event)
    (secret : string) (db : Db) (body sig : string) :
  let once := post_webhook_stripe constructEvent secret db body sig in
  post_webhook_stripe constructEvent secret once.1 body sig = once.
Proof.
  simpl. pose proof (webhook_idemp constructEvent secret db body sig) as H.
  destruct (post_webhook_stripe constructEvent secret db body sig)
    as [db1 r1] eqn:E1. simpl in *.
  destruct (post_webhook_stripe constructEvent secret db1 body sig)
    as [db2 r2] eqn:E2. simpl in *. subst db2. f_equal.
  unfold post_webhook_stripe in E1, E2.
  destruct (constructEvent body sig secret); [|congruence].
  case_decide; congruence.
Qed.

(** X2. Reloading the success page is absorbed: the same request a second
    time leaves the database as the first one left it and gives the same
    answer. *)
Theorem success_page_reload_absorbed
    (db : Db) (uid : ObjectId) (booking_id : option ObjectId) :
  let once := get_payment_success db uid booking_id in
  get_payment_success once.1 uid booking_id = once.
Proof.
  simpl. pose proof (get_payment_success_idemp db uid booking_id) as H.
  destruct (get_payment_success db uid booking_id) as [db1 r1] eqn:E1.
  simpl in *.
  destruct (get_payment_success db1 uid booking_id) as [db2 r2] eqn:E2.
  simpl in *. subst db2. f_equal.
  unfold get_payment_success in E1, E2.
  destruct booking_id as [id|]; [|congruence].
  destruct (bookings db !! id) as [b|] eqn:Hb.
  - case_decide as Hu.
    + injection E1 as <- <-. simpl in E2.
      rewrite lookup_insert_eq in E2. simpl in E2.
      rewrite decide_True in E2 by done. congruence.
    + injection E1 as <- <-. rewrite Hb, decide_False in E2 by done.
      congruence.
  - injection E1 as <- <-. rewrite Hb in E2. congruence.
Qed.

(** X3. When the Payment records of a booking are exactly the records of
    the succeeded intent, the webhook and the owner's success-page request
    write the same database. *)
Theorem paths_agree_on_single_intent
    (constructEvent : string → string → string → option Stripe.Event)
    (secret : string) (db : Db) (body sig : string) (event : Stripe.Event)
    (b : Booking.t) :
  constructEvent body sig secret = Some event →
  Stripe.type event = "payment_intent.succeeded" →
  let id := Stripe.metadata_bookingId (Stripe.data_object event) in
  bookings db !! id = Some b →
  Forall (λ p, Payment.booking p = id
               ↔ Payment.paymentIntentId p
                 = Stripe.id (Stripe.data_object event)) (payments db) →
  (post_webhook_stripe constructEvent secret db body sig).1
  = (get_payment_success db (Booking.user b) (Some id)).1.
Proof.
  intros He Ht id Hb Hsame.
  rewrite (webhook_succeeded _ _ _ _ _ _ He Ht).
  rewrite (get_payment_success_owner _ _ _ _ Hb eq_refl). simpl.
  unfold set_payments, set_bookings. simpl. f_equal.
  - by apply alter_mark_confirmed_insert.
  - apply findOneAndUpdate_ext.
    eapply Forall_impl; [exact Hsame|]. intros p Hp. simpl in Hp.
    apply bool_decide_ext. fold id. tauto.
Qed.

Lemma paths_agree_on_single_intent_witness :
  demo_constructEvent "pi_1" "whsec" "whsec"
  = Some (Stripe.mkEvent "payment_intent.succeeded"
            (Stripe.mkIntent "pi_1" 100%N))
  ∧ bookings db_intent !! 100%N = Some booking_100
  ∧ (post_webhook_stripe demo_constructEvent "whsec" db_intent
       "pi_1" "whsec").1
    = (get_payment_success db_intent 1 (Some 100%N)).1.
Proof.
  assert (Hb : bookings db_intent !! 100%N = Some booking_100)
    by (vm_compute; reflexivity).
  split; [reflexivity|]. split; [exact Hb|].
  refine (paths_agree_on_single_intent demo_constructEvent "whsec" db_intent
            "pi_1" "whsec" _ booking_100 eq_refl eq_refl Hb _).
  vm_compute. repeat constructor.
Defined.

(** ** What one request does to a booking and to the Payment records *)

Section Steps.
Variable constructEvent : string → string → string → option Stripe.Event.
Variable secret : string.

Local Abbreviation step := (handle constructEvent secret).

Lemma recalculateHotelRating_payments hid db :
  payments (recalculateHotelRating hid db) = payments db.
Proof. unfold recalculateHotelRating. by destruct (hotels db !! hid). Qed.

Lemma review_route_payments db req :
  payments (review_route db req).1 = payments db.
Proof.
  destruct req as [uid hid text rating newId|uid hid rid text rating
                  |uid hid rid]; simpl.
  - unfold post_hotels_reviews.
    destruct (hotels db !! hid), (users db !! uid) as [user|]; try done.
    case_decide; [done|]. destruct (User.isAdmin user); [done|].
    destruct (negb _); [done|]. destruct (bool_decide _); [done|].
    simpl. by rewrite recalculateHotelRating_payments.
  - unfold put_hotels_reviews. destruct (reviews db !! rid); [|done].
    case_decide; [|done]. simpl. by rewrite recalculateHotelRating_payments.
  - unfold delete_hotels_reviews. destruct (reviews db !! rid); [|done].
    case_decide; [|done]. simpl. by rewrite recalculateHotelRating_payments.
Qed.

(** The booking stored under [id] after a request: the one stored before;
    or that one with a new intent reference, confirmed by a confirmation
    of [id], or cancelled; or a new pending booking created under [id]. *)
Lemma handle_booking_cases db req id :
  let db' := (step db req).1 in
  bookings db' !! id = bookings db !! id
  ∨ (∃ b, bookings db !! id = Some b
       ∧ ((∃ i, bookings db' !! id = Some (Booking.set_paymentIntentId i b))
          ∨ (bookings db' !! id = Some (mark_confirmed b)
             ∧ confirms constructEvent secret id req)
          ∨ bookings db' !! id
            = Some (Booking.set_status Booking.cancelled b)))
  ∨ (∃ uid hid ci co n today price,
       req = Book uid hid ci co n today id ∧ ci < co ∧ 1 <= n
       ∧ bookings db' !! id
         = Some (Booking.mk hid uid ci co n price Booking.pending
                   Booking.pay_pending None today)).
Proof.
  destruct req as [uid hid ci co n today newId|uid j created now|body sig
                  |uid q|uid j now|req]; simpl.
  - unfold post_hotels_book.
    destruct (users db !! uid) as [user|]; [|by left].
    destruct (User.isAdmin user); [by left|].
    unfold validate_and_price.
    case_decide as Hd; [by left|].
    destruct (hotels db !! hid) as [hotel|]; [|by left].
    case_decide; [by left|].
    unfold Booking_create. simpl. case_decide as Hn; [|by left]. simpl.
    destruct (decide (newId = id)) as [->|Hne].
    + right. right. eexists uid, hid, ci, co, n, today, _.
      rewrite lookup_insert_eq. repeat split; try done. lia.
    + left. by rewrite lookup_insert_ne.
  - unfold post_bookings_payment.
    destruct (bookings db !! j) as [bj|] eqn:Hj; [|by left].
    destruct (users db !! _); [|by left].
    case_decide; [|by left].
    destruct created as [[intentId clientSecret]|]; [|by left]. simpl.
    destruct (decide (j = id)) as [->|Hne].
    + right. left. exists bj. split; [done|]. left. exists intentId.
      by rewrite lookup_insert_eq.
    + left. by rewrite lookup_insert_ne.
  - unfold post_webhook_stripe.
    destruct (constructEvent body sig secret) as [event|] eqn:He;
      [|by left].
    case_decide as Ht; [|by left]. simpl.
    destruct (decide (Stripe.metadata_bookingId (Stripe.data_object event)
                      = id)) as [Hid|Hid].
    + rewrite Hid, lookup_alter_eq.
      destruct (bookings db !! id) as [b|] eqn:Hb; [|by left].
      right. left. exists b. split; [done|]. right. left.
      split; [done|]. by exists event.
    + left. by rewrite lookup_alter_ne.
  - unfold get_payment_success.
    destruct q as [j|]; [|by left].
    destruct (bookings db !! j) as [bj|] eqn:Hj; [|by left].
    case_decide as Hu; [|by left]. simpl.
    destruct (decide (j = id)) as [->|Hne].
    + right. left. exists bj. split; [done|]. right. left.
      by rewrite lookup_insert_eq.
    + left. by rewrite lookup_insert_ne.
  - unfold post_bookings_cancel.
    destruct (bookings db !! j) as [bj|] eqn:Hj; [|by left].
    case_decide; [|by left]. case_decide; [by left|].
    case_decide; [by left|]. simpl.
    destruct (decide (j = id)) as [->|Hne].
    + right. left. exists bj. split; [done|]. right. right.
      by rewrite lookup_insert_eq.
    + left. by rewrite lookup_insert_ne.
  - left. by rewrite review_route_bookings.
Qed.

(** Every Payment record keeps its position and either stays as it is or
    becomes succeeded. *)
Lemma handle_payment_cases db req k p :
  payments db !! k = Some p →
  payments (step db req).1 !! k = Some p
  ∨ payments (step db req).1 !! k
    = Some (Payment.set_status Payment.succeeded p).
Proof.
  intros Hk.
  destruct req as [uid hid ci co n today newId|uid j created now|body sig
                  |uid q|uid j now|req]; simpl.
  - left. unfold post_hotels_book.
    destruct (users db !! uid) as [user|]; [|done].
    destruct (User.isAdmin user); [done|].
    destruct (validate_and_price _ _ _ _ _ _ _); try done.
    unfold Booking_create. by case_decide.
  - left. unfold post_bookings_payment.
    destruct (bookings db !! j) as [bj|]; [|done].
    destruct (users db !! _); [|done].
    case_decide; [|done].
    destruct created as [[intentId clientSecret]|]; [|done]. simpl.
    by apply lookup_app_l_Some.
  - unfold post_webhook_stripe.
    destruct (constructEvent body sig secret) as [event|]; [|by left].
    case_decide; [|by left]. simpl. by apply findOneAndUpdate_lookup.
  - unfold get_payment_success.
    destruct q as [j|]; [|by left].
    destruct (bookings db !! j) as [bj|]; [|by left].
    case_decide; [|by left]. simpl. by apply findOneAndUpdate_lookup.
  - left. unfold post_bookings_cancel.
    destruct (bookings db !! j) as [bj|]; [|done].
    case_decide; [|done]. case_decide; [done|]. by case_decide.
  - left. by rewrite review_route_payments.
Qed.

Lemma run_snoc db reqs req :
  run constructEvent secret db (reqs ++ [req])
  = (step (run constructEvent secret db reqs) req).1.
Proof. unfold run. by rewrite foldl_app. Qed.
End Steps.

(** X4. A booking that was not confirmed and is confirmed after a run of
    requests met, somewhere in the run, a confirmation of it: a webhook call
    with a verified [payment_intent.succeeded] event naming it, or a
    success-page request for it.  No other route confirms. *)
Theorem confirmed_only_after_confirmation
    (constructEvent : string → string → string → option Stripe.Event)
    (secret : string) (db : Db) (reqs : list Request) (id : ObjectId)
    (b' : Booking.t) :
  (∀ b, bookings db !! id = Some b → Booking.status b ≠ Booking.confirmed) →
  bookings (run constructEvent secret db reqs) !! id = Some b' →
  Booking.status b' = Booking.confirmed →
  Exists (confirms constructEvent secret id) reqs.
Proof.
  intros Hinit. revert b'.
  induction reqs as [|req reqs IH] using rev_ind; intros b' Hb' Hs.
  - by destruct (Hinit b' Hb').
  - rewrite run_snoc in Hb'. apply Exists_app.
    destruct (handle_booking_cases constructEvent secret
                (run constructEvent secret db reqs) req id)
      as [Hsame|[(b & Hb & Hcase)|Hnew]]; simpl in *.
    + left. apply (IH b'); [congruence|done].
    + destruct Hcase as [(i & Hi)|[(Hc & Hconf)|Hc]].
      * left. apply (IH b); [done|].
        rewrite Hi in Hb'. by injection Hb' as <-.
      * right. by apply Exists_cons_hd.
      * rewrite Hc in Hb'. injection Hb' as <-. done.
    + destruct Hnew as (uid & hid & ci & co & n & today & price & _ & _ & _
                        & Hc).
      rewrite Hc in Hb'. injection Hb' as <-. done.
Qed.

Lemma confirmed_only_after_confirmation_witness :
  booking_state (run demo_constructEvent "whsec" db0 demo_requests) 100
  = Some (Booking.confirmed, Booking.completed)
  ∧ Exists (confirms demo_constructEvent "whsec" 100) demo_requests.
Proof.
  split; [by vm_compute|].
  refine (confirmed_only_after_confirmation demo_constructEvent "whsec" db0
            demo_requests 100%N
            (Booking.mk 10 1 (day 10) (day 13) 2 600 Booking.confirmed
               Booking.completed (Some "pi_1") (day 1)) _ _ eq_refl).
  - intros b Hb. vm_compute in Hb. discriminate.
  - vm_compute. reflexivity.
Defined.

(** X5. The intended payment flow composes: after the owner's payment-page
    call created an intent whose id no earlier record carries, a verified
    success event for that intent and booking leaves the booking confirmed
    and completed with that intent reference, the new Payment record
    succeeded, and every earlier Payment record as it was. *)
Theorem payment_then_webhook_confirms_new_attempt
    (constructEvent : string → string → string → option Stripe.Event)
    (secret : string) (db : Db) (id : ObjectId) (b : Booking.t)
    (intentId clientSecret body sig : string) (now : Date) :
  bookings db !! id = Some b →
  is_Some (users db !! Booking.user b) →
  Forall (λ p, Payment.paymentIntentId p ≠ intentId) (payments db) →
  constructEvent body sig secret
  = Some (Stripe.mkEvent "payment_intent.succeeded"
            (Stripe.mkIntent intentId id)) →
  let db1 := (post_bookings_payment db (Booking.user b) id
                (Some (intentId, clientSecret)) now).1 in
  let db2 := (post_webhook_stripe constructEvent secret db1 body sig).1 in
  bookings db2
  = <[id := mark_confirmed (Booking.set_paymentIntentId intentId b)]>
      (bookings db)
  ∧ payments db2
    = payments db
      ++ [Payment.mk id (Booking.user b) (Booking.totalPrice b) "usd"
            intentId Payment.succeeded now].
Proof.
  intros Hb [u Hu] Hfresh He. simpl.
  unfold post_bookings_payment. rewrite Hb, Hu, decide_True by done. simpl.
  rewrite (webhook_succeeded _ _ _ _ _ _ He eq_refl). simpl. split.
  - apply map_eq. intros j. destruct (decide (id = j)) as [<-|Hne].
    + by rewrite lookup_alter_eq, !lookup_insert_eq.
    + by rewrite lookup_alter_ne, !lookup_insert_ne.
  - induction Hfresh as [|p ps Hp _ IH]; simpl.
    + by rewrite bool_decide_true.
    + rewrite bool_decide_false by done. by rewrite IH.
Qed.

Lemma payment_then_webhook_confirms_new_attempt_witness :
  bookings db_intent !! 100%N = Some booking_100
  ∧ payment_statuses
      (post_webhook_stripe demo_constructEvent "whsec"
         (post_bookings_payment db_intent 1 100 (Some ("pi_2", "secret_2"))
            (day 1)).1 "pi_2" "whsec").1
    = [Payment.pending; Payment.succeeded].
Proof.
  assert (Hb : bookings db_intent !! 100%N = Some booking_100)
    by (vm_compute; reflexivity).
  split; [exact Hb|].
  assert (Hu : is_Some (users db_intent !! Booking.user booking_100))
    by (vm_compute; eauto).
  assert (Hfresh : Forall (λ p, Payment.paymentIntentId p ≠ "pi_2")
                     (payments db_intent))
    by (vm_compute; repeat constructor; discriminate).
  destruct (payment_then_webhook_confirms_new_attempt demo_constructEvent
              "whsec" db_intent 100%N booking_100 "pi_2" "secret_2" "pi_2"
              "whsec" (day 1) Hb Hu Hfresh eq_refl) as [_ Hpay].
  unfold payment_statuses. cbv zeta in Hpay.
  etrans; [exact (f_equal (fmap Payment.status) Hpay)|].
  vm_compute. reflexivity.
Defined.

(** X6. The Payment collection is an audit trail: over any run of requests
    every record keeps its position, booking, user, amount and intent id;
    its status either stays or becomes succeeded, and a succeeded record is
    never changed again. *)
Theorem payment_records_only_gain_success
    (constructEvent : string → string → string → option Stripe.Event)
    (secret : string) (db : Db) (reqs : list Request) (k : nat)
    (p : Payment.t) :
  payments db !! k = Some p →
  (payments (run constructEvent secret db reqs) !! k = Some p
   ∨ payments (run constructEvent secret db reqs) !! k
     = Some (Payment.set_status Payment.succeeded p))
  ∧ (Payment.status p = Payment.succeeded →
     payments (run constructEvent secret db reqs) !! k = Some p).
Proof.
  intros Hk.
  assert (Hcases :
    payments (run constructEvent secret db reqs) !! k = Some p
    ∨ payments (run constructEvent secret db reqs) !! k
      = Some (Payment.set_status Payment.succeeded p)).
  { induction reqs as [|req reqs IH] using rev_ind; [by left|].
    rewrite run_snoc.
    destruct IH as [IH|IH];
      destruct (handle_payment_cases constructEvent secret _ req k _ IH)
        as [H|H]; rewrite H; auto. }
  split; [done|]. intros Hs.
  destruct Hcases as [H|H]; [done|]. rewrite H. f_equal.
  destruct p. simpl in *. by subst.
Qed.

Lemma payment_records_only_gain_success_witness :
  payments db_paid !! 0%nat
  = Some (Payment.mk 100 1 600 "usd" "pi_1" Payment.succeeded (day 1))
  ∧ payments (run demo_constructEvent "whsec" db_paid demo_requests) !! 0%nat
    = Some (Payment.mk 100 1 600 "usd" "pi_1" Payment.succeeded (day 1)).
Proof.
  assert (Hk : payments db_paid !! 0%nat
               = Some (Payment.mk 100 1 600 "usd" "pi_1" Payment.succeeded
                         (day 1))) by (vm_compute; reflexivity).
  split; [exact Hk|].
  apply (payment_records_only_gain_success demo_constructEvent "whsec"
           db_paid demo_requests 0 _ Hk). reflexivity.
Defined.

(** X7. No route rewrites a reservation: over any run that does not hand
    out the id of a stored booking again, the booking stays stored and
    keeps its hotel, user, dates, room count, total price and creation
    time. *)
Theorem reservations_never_rewritten
    (constructEvent : string → string → string → option Stripe.Event)
    (secret : string) (db : Db) (reqs : list Request) (id : ObjectId)
    (b : Booking.t) :
  bookings db !! id = Some b →
  Forall (λ req, ¬ creates id req) reqs →
  ∃ b', bookings (run constructEvent secret db reqs) !! id = Some b'
        ∧ same_reservation b b'.
Proof.
  intros Hb Hfresh.
  induction reqs as [|req reqs IH] using rev_ind.
  - exists b. by repeat split.
  - apply Forall_app in Hfresh as [Hreqs Hreq].
    rewrite Forall_singleton in Hreq.
    destruct (IH Hreqs) as (b1 & Hb1 & Hsame).
    rewrite run_snoc.
    destruct (handle_booking_cases constructEvent secret
                (run constructEvent secret db reqs) req id)
      as [H|[(b2 & Hb2 & Hcase)|Hnew]]; simpl in *.
    + exists b1. split; [congruence|done].
    + assert (b2 = b1) as -> by congruence.
      destruct Hcase as [(i & Hi)|[(Hc & _)|Hc]];
        eexists; (split; [eassumption|]); by destruct Hsame as (?&?&?&?&?&?&?).
    + destruct Hnew as (uid & hid & ci & co & n & today & price & -> & _).
      exfalso. apply Hreq. reflexivity.
Qed.

Lemma reservations_never_rewritten_witness :
  bookings db_intent !! 100%N = Some booking_100
  ∧ ∃ b', bookings (run demo_constructEvent "whsec" db_intent
                      (tail demo_requests)) !! 100%N = Some b'
          ∧ same_reservation booking_100 b'.
Proof.
  assert (Hb : bookings db_intent !! 100%N = Some booking_100)
    by (vm_compute; reflexivity).
  split; [exact Hb|].
  apply (reservations_never_rewritten demo_constructEvent "whsec" db_intent
           (tail demo_requests) 100%N booking_100 Hb).
  simpl. repeat constructor; simpl; tauto.
Defined.

(** X8. Every stored booking has [checkInDate < checkOutDate] and at least
    one room, and every run of requests keeps it so. *)
Theorem bookings_stay_well_formed
    (constructEvent : string → string → string → option Stripe.Event)
    (secret : string) (db : Db) (reqs : list Request) :
  map_Forall (λ _ b, booking_well_formed b) (bookings db) →
  map_Forall (λ _ b, booking_well_formed b)
    (bookings (run constructEvent secret db reqs)).
Proof.
  intros Hwf.
  induction reqs as [|req reqs IH] using rev_ind; [done|].
  rewrite run_snoc. intros id b' Hb'.
  destruct (handle_booking_cases constructEvent secret
              (run constructEvent secret db reqs) req id)
    as [H|[(b & Hb & Hcase)|Hnew]]; simpl in *.
  - apply (IH id). congruence.
  - pose proof (IH id b Hb) as Hwfb.
    destruct Hcase as [(i & Hi)|[(Hc & _)|Hc]]; by simplify_eq.
  - destruct Hnew as (uid & hid & ci & co & n & today & price & _ & Hd & Hn
                      & Hc).
    simplify_eq. by split.
Qed.

Lemma bookings_stay_well_formed_witness :
  map_Forall (λ _ b, booking_well_formed b) (bookings db0)
  ∧ map_Forall (λ _ b, booking_well_formed b)
      (bookings (run demo_constructEvent "whsec" db0 demo_requests)).
Proof.
  assert (H0 : map_Forall (λ _ b, booking_well_formed b) (bookings db0))
    by (intros i b Hb; vm_compute in Hb; discriminate).
  split; [exact H0|].
  exact (bookings_stay_well_formed demo_constructEvent "whsec" db0
           demo_requests H0).
Defined.

(** ** Availability *)

Section AvailabilityMore.
Implicit Types (bs : gmap N Booking.t) (b : Booking.t).

Lemma sum_contributions_le (f g : Booking.t → Z) bs :
  map_Forall (λ _ b, f b <= g b) bs →
  map_fold (λ _ b acc, f b + acc) 0 bs
  <= map_fold (λ _ b acc, g b + acc) 0 bs.
Proof.
  induction bs as [|i b bs Hi IH] using map_ind; intros Hle.
  - by rewrite !map_fold_empty.
  - apply map_Forall_insert in Hle as [Hb Hbs]; [|done].
    rewrite !map_fold_insert_L; [|intros; lia|done|intros; lia|done].
    specialize (IH Hbs). lia.
Qed.

Lemma rooms_committed_by_nonneg hid ci co b :
  booking_well_formed b → 0 <= rooms_committed_by hid ci co b.
Proof.
  intros [_ Hn]. unfold rooms_committed_by.
  destruct (counts_as_committed hid ci co b); lia.
Qed.

Lemma committedRooms_nonneg bs hid ci co :
  map_Forall (λ _ b, booking_well_formed b) bs →
  0 <= committedRooms_spec bs hid ci co.
Proof.
  intros Hwf. unfold committedRooms_spec.
  etrans; [|apply (sum_contributions_le (λ _, 0))].
  - clear Hwf. induction bs as [|i b bs Hi IH] using map_ind.
    + by rewrite map_fold_empty.
    + rewrite map_fold_insert_L; [lia|intros; lia|done].
  - intros i b Hb. by apply rooms_committed_by_nonneg, (Hwf i).
Qed.

(** Replacing the booking stored under [id] changes the availability of
    every hotel and interval by the difference of the contributions. *)
Lemma availableRooms_replace db hotel hid ci co id b b' :
  bookings db !! id = Some b →
  availableRooms (set_bookings (insert id b') db) hotel hid ci co
  = availableRooms db hotel hid ci co
    + rooms_committed_by hid ci co b - rooms_committed_by hid ci co b'.
Proof.
  intros Hb. unfold availableRooms, existingBookings. simpl.
  rewrite bookedRooms_insert.
  rewrite <- (insert_id (bookings db) id b Hb) at 2.
  rewrite bookedRooms_insert. lia.
Qed.
End AvailabilityMore.

(** X9. With well-formed stored bookings the rooms offered for an interval
    never exceed the hotel's [totalRooms]; a request with valid dates for
    more rooms than the hotel has is answered with the available count and
    stores nothing. *)
Theorem never_more_rooms_than_the_hotel_has
    (db : Db) (hotel : Hotel.t) (hid : ObjectId) (checkIn checkOut : Date)
    (numberOfRooms : Z) (today : Date) :
  map_Forall (λ _ b, booking_well_formed b) (bookings db) →
  availableRooms db hotel hid checkIn checkOut <= Hotel.totalRooms hotel
  ∧ (hotels db !! hid = Some hotel →
     ¬ (checkIn < today ∨ checkOut <= checkIn) →
     Hotel.totalRooms hotel < numberOfRooms →
     ∀ uid user newId,
       users db !! uid = Some user → User.isAdmin user = false →
       post_hotels_book db uid hid checkIn checkOut numberOfRooms today newId
       = (db, SendOnlyRoomsAvailable
                (availableRooms db hotel hid checkIn checkOut))).
Proof.
  intros Hwf.
  assert (Hle : availableRooms db hotel hid checkIn checkOut
                <= Hotel.totalRooms hotel).
  { unfold availableRooms, existingBookings. rewrite bookedRooms_spec.
    pose proof (committedRooms_nonneg (bookings db) hid checkIn checkOut Hwf).
    lia. }
  split; [done|].
  intros Hh Hd Hn uid user newId Hu Ha.
  unfold post_hotels_book, validate_and_price.
  rewrite Hu, Ha, Hh, decide_False, decide_True by (done || lia). done.
Qed.

Lemma never_more_rooms_than_the_hotel_has_witness :
  map_Forall (λ _ b, booking_well_formed b) (bookings db_paid)
  ∧ availableRooms db_paid inn 10 (day 11) (day 12) <= 12
  ∧ post_hotels_book db_paid 1 10 (day 11) (day 12) 13 (day 2) 101
    = (db_paid, SendOnlyRoomsAvailable 10).
Proof.
  assert (Hwf : map_Forall (λ _ b, booking_well_formed b) (bookings db_paid))
    by by_evaluation.
  destruct (never_more_rooms_than_the_hotel_has db_paid inn 10 (day 11)
              (day 12) 13 (day 2) Hwf) as [Hle Hrefused].
  split; [exact Hwf|]. split; [exact Hle|].
  refine (Hrefused eq_refl _ _ 1%N guest 101%N eq_refl eq_refl).
  - unfold day, day_ms. lia.
  - simpl. lia.
Defined.

(** X10. Asking for a wider interval never offers more rooms: with
    well-formed stored bookings, if [checkIn' <= checkIn] and
    [checkOut <= checkOut'] then the rooms available for
    [checkIn', checkOut'] are at most those for [checkIn, checkOut]. *)
Theorem wider_interval_offers_no_more
    (db : Db) (hotel : Hotel.t) (hid : ObjectId)
    (checkIn checkOut checkIn' checkOut' : Date) :
  map_Forall (λ _ b, booking_well_formed b) (bookings db) →
  checkIn' <= checkIn → checkOut <= checkOut' →
  availableRooms db hotel hid checkIn' checkOut'
  <= availableRooms db hotel hid checkIn checkOut.
Proof.
  intros Hwf Hi Ho. unfold availableRooms, existingBookings.
  rewrite !bookedRooms_spec. unfold committedRooms_spec.
  assert (map_fold (λ _ b acc, rooms_committed_by hid checkIn checkOut b + acc)
            0 (bookings db)
          <= map_fold
               (λ _ b acc, rooms_committed_by hid checkIn' checkOut' b + acc)
               0 (bookings db)); [|lia].
  apply (sum_contributions_le (rooms_committed_by hid checkIn checkOut)
           (rooms_committed_by hid checkIn' checkOut')).
  intros i b Hb. destruct (Hwf i b Hb) as [_ Hn].
  unfold rooms_committed_by.
  destruct (counts_as_committed hid checkIn checkOut b) eqn:E.
  - apply counts_as_committed_query in E.
    assert (overlap_query hid checkIn' checkOut' b)
      as ->%counts_as_committed_query; [|lia].
    unfold overlap_query in *. intuition lia.
  - destruct (counts_as_committed hid checkIn' checkOut' b); lia.
Qed.

Lemma wider_interval_offers_no_more_witness :
  map_Forall (λ _ b, booking_well_formed b) (bookings db_paid)
  ∧ availableRooms db_paid inn 10 (day 5) (day 20)
    <= availableRooms db_paid inn 10 (day 14) (day 15).
Proof.
  assert (Hwf : map_Forall (λ _ b, booking_well_formed b) (bookings db_paid))
    by by_evaluation.
  split; [exact Hwf|].
  apply (wider_interval_offers_no_more db_paid inn 10 (day 14) (day 15)
           (day 5) (day 20) Hwf); unfold day, day_ms; lia.
Defined.

(** X11. A successful cancellation releases the rooms the booking held:
    for every hotel and interval the available rooms grow by the booking's
    committed rooms, which are its [numberOfRooms] if it was confirmed, of
    that hotel and overlapping, and 0 otherwise. *)
Theorem cancellation_releases_rooms
    (db : Db) (uid id : ObjectId) (b : Booking.t) (now : Date)
    (hotel : Hotel.t) (hid : ObjectId) (checkIn checkOut : Date) :
  bookings db !! id = Some b →
  Booking.user b = uid →
  Booking.status b ≠ Booking.cancelled →
  now + 7 * day_ms < Booking.checkInDate b →
  availableRooms (post_bookings_cancel db uid id now).1 hotel hid
    checkIn checkOut
  = availableRooms db hotel hid checkIn checkOut
    + rooms_committed_by hid checkIn checkOut b.
Proof.
  intros Hb Hu Hs Hw. unfold post_bookings_cancel.
  rewrite Hb, decide_True, !decide_False by (done || lia). simpl.
  rewrite (availableRooms_replace _ _ _ _ _ _ b) by done.
  unfold rooms_committed_by at 2, counts_as_committed. simpl.
  rewrite andb_false_r. simpl. lia.
Qed.

Lemma cancellation_releases_rooms_witness :
  bookings db_paid !! 100%N = Some (mark_confirmed booking_100)
  ∧ availableRooms db_paid inn 10 (day 11) (day 12) = 10
  ∧ availableRooms (post_bookings_cancel db_paid 1 100 (day 2)).1 inn 10
      (day 11) (day 12) = 12.
Proof.
  assert (Hb : bookings db_paid !! 100%N = Some (mark_confirmed booking_100))
    by (vm_compute; reflexivity).
  split; [exact Hb|]. split; [vm_compute; reflexivity|].
  rewrite (cancellation_releases_rooms db_paid 1 100
             (mark_confirmed booking_100) (day 2) inn 10 (day 11) (day 12)
             Hb eq_refl).
  - vm_compute. reflexivity.
  - discriminate.
  - vm_compute. reflexivity.
Defined.

(** X12. A verified success event takes the rooms of the booking it names:
    for every hotel and interval the available rooms shrink by what the
    booking commits once confirmed, less what it committed before.  The
    webhook does not look at the availability, so the result may be
    negative. *)
Theorem confirmation_takes_rooms
    (constructEvent : string → string → string → option Stripe.Event)
    (secret : string) (db : Db) (body sig : string) (event : Stripe.Event)
    (b : Booking.t) (hotel : Hotel.t) (hid : ObjectId)
    (checkIn checkOut : Date) :
  constructEvent body sig secret = Some event →
  Stripe.type event = "payment_intent.succeeded" →
  bookings db !! Stripe.metadata_bookingId (Stripe.data_object event)
  = Some b →
  availableRooms (post_webhook_stripe constructEvent secret db body sig).1
    hotel hid checkIn checkOut
  = availableRooms db hotel hid checkIn checkOut
    - (rooms_committed_by hid checkIn checkOut (mark_confirmed b)
       - rooms_committed_by hid checkIn checkOut b).
Proof.
  intros He Ht Hb.
  rewrite (webhook_succeeded _ _ _ _ _ _ He Ht). simpl.
  unfold availableRooms at 1, existingBookings. simpl.
  rewrite (alter_mark_confirmed_insert _ _ _ Hb).
  pose proof (availableRooms_replace db hotel hid checkIn checkOut _ b
                (mark_confirmed b) Hb) as H.
  unfold availableRooms at 1, existingBookings in H. simpl in H.
  rewrite H. lia.
Qed.

Lemma confirmation_takes_rooms_witness :
  bookings db_intent !! 100%N = Some booking_100
  ∧ availableRooms db_intent inn 10 (day 11) (day 12) = 12
  ∧ availableRooms
      (post_webhook_stripe demo_constructEvent "whsec" db_intent
         "pi_1" "whsec").1 inn 10 (day 11) (day 12) = 10.
Proof.
  assert (Hb : bookings db_intent !! 100%N = Some booking_100)
    by (vm_compute; reflexivity).
  split; [exact Hb|]. split; [vm_compute; reflexivity|].
  rewrite (confirmation_takes_rooms demo_constructEvent "whsec" db_intent
             "pi_1" "whsec" _ booking_100 inn 10 (day 11) (day 12)
             eq_refl eq_refl Hb).
  vm_compute. reflexivity.
Defined.

(** ** Reviews *)

Section Reviews.
Implicit Types (db : Db) (h : Hotel.t).

Lemma hasBooked_true db hid uid :
  hasBooked db hid uid = true
  ↔ ∃ i b, bookings db !! i = Some b ∧ stayed hid uid b.
Proof.
  unfold hasBooked. rewrite bool_decide_eq_true, Exists_exists. split.
  - intros (b & Hin & Hb).
    apply list_elem_of_fmap in Hin as ([i b'] & -> & Hin).
    apply elem_of_map_to_list in Hin. by exists i, b'.
  - intros (i & b & Hi & Hb). exists b. split; [|done].
    apply list_elem_of_fmap. exists (i, b). split; [done|].
    by apply elem_of_map_to_list.
Qed.

Lemma reviewed_by_true db h uid :
  Exists (λ r, Review.author_id r = uid) (populate_reviews db h)
  ↔ ∃ rid r, rid ∈ Hotel.reviews h ∧ reviews db !! rid = Some r
             ∧ Review.author_id r = uid.
Proof.
  rewrite Exists_exists. unfold populate_reviews. split.
  - intros (r & Hin & Hr). apply list_elem_of_omap in Hin as (rid & ? & ?).
    by exists rid, r.
  - intros (rid & r & Hin & Hrid & Hr). exists r. split; [|done].
    apply list_elem_of_omap. by exists rid.
Qed.

Lemma populate_reviews_set_averageRating db a h :
  populate_reviews db (Hotel.set_averageRating a h) = populate_reviews db h.
Proof. reflexivity. Qed.

Lemma recalculateHotelRating_reviews hid db :
  reviews (recalculateHotelRating hid db) = reviews db.
Proof. unfold recalculateHotelRating. by destruct (hotels db !! hid). Qed.

Lemma recalculateHotelRating_lookup hid db hid' h' :
  hotels (recalculateHotelRating hid db) !! hid' = Some h' →
  ∃ h, hotels db !! hid' = Some h ∧ Hotel.reviews h' = Hotel.reviews h
       ∧ Hotel.author_id h' = Hotel.author_id h.
Proof.
  unfold recalculateHotelRating.
  destruct (hotels db !! hid) as [hotel|] eqn:Hh; [|by eauto].
  simpl. rewrite lookup_insert. case_decide as Hd; [|by eauto].
  intros [= <-]. subst hid'. by exists hotel.
Qed.

(** The uniqueness of authors only depends on the stored reviews and on
    the review lists of the hotels. *)
Lemma one_review_per_author_recalculate hid db :
  one_review_per_author db →
  one_review_per_author (recalculateHotelRating hid db).
Proof.
  intros Hu hid' h' Hh'.
  destruct (recalculateHotelRating_lookup _ _ _ _ Hh') as (h & Hh & Hl & _).
  erewrite populate_reviews_ext;
    [exact (Hu hid' h Hh)|done|].
  intros rid _. by rewrite recalculateHotelRating_reviews.
Qed.

Lemma authors_alter (rs : gmap N Review.t) rid text rating (l : list N) :
  Review.author_id
    <$> omap (λ x, alter (Review.set_text_rating text rating) rid rs !! x) l
  = Review.author_id <$> omap (λ x, rs !! x) l.
Proof.
  induction l as [|x l IH]; [done|]. csimpl.
  destruct (decide (rid = x)) as [<-|Hne].
  - rewrite lookup_alter_eq. destruct (rs !! rid); csimpl; by rewrite ?IH.
  - rewrite lookup_alter_ne by done.
    destruct (rs !! x); csimpl; by rewrite ?IH.
Qed.

Lemma omap_delete_sublist (rs : gmap N Review.t) rid (l l' : list N) :
  l' `sublist_of` l →
  omap (λ x, delete rid rs !! x) l' `sublist_of` omap (λ x, rs !! x) l.
Proof.
  induction 1 as [|x l1 l2 _ IH|x l1 l2 _ IH]; simpl.
  - constructor.
  - destruct (decide (rid = x)) as [<-|Hne].
    + rewrite lookup_delete_eq.
      destruct (rs !! rid); [apply sublist_cons|]; exact IH.
    + rewrite lookup_delete_ne by done.
      destruct (rs !! x); [apply sublist_skip|]; exact IH.
  - destruct (rs !! x); [apply sublist_cons|]; exact IH.
Qed.
End Reviews.

(** X13. A review is stored exactly when the hotel and the user exist, the
    user is neither the hotel's author nor an admin, has a confirmed and
    paid booking of that hotel, and has no review among those the hotel
    lists; every refusal leaves the database unchanged, and an accepted
    review is stored under the new id with the submitted text and rating
    and listed by the hotel. *)
Theorem review_accepted_exactly_for_verified_guests
    (db : Db) (uid hid : ObjectId) (text : string) (rating : Z)
    (newId : ObjectId) :
  let out := post_hotels_reviews db uid hid text rating newId in
  (out.2 = RedirectHotel hid
   ↔ ∃ hotel user,
       hotels db !! hid = Some hotel ∧ users db !! uid = Some user
       ∧ Hotel.author_id hotel ≠ uid ∧ User.isAdmin user = false
       ∧ (∃ i b, bookings db !! i = Some b ∧ Booking.hotel b = hid
                 ∧ Booking.user b = uid
                 ∧ Booking.status b = Booking.confirmed
                 ∧ Booking.paymentStatus b = Booking.completed)
       ∧ (∀ rid r, rid ∈ Hotel.reviews hotel → reviews db !! rid = Some r →
                   Review.author_id r ≠ uid))
  ∧ (out.2 ≠ RedirectHotel hid → out.1 = db)
  ∧ (out.2 = RedirectHotel hid →
     (∃ user, users db !! uid = Some user
              ∧ reviews out.1 !! newId
                = Some (Review.mk text rating uid (User.username user)))
     ∧ ∃ h', hotels out.1 !! hid = Some h' ∧ newId ∈ Hotel.reviews h').
Proof.
  simpl. unfold post_hotels_reviews.
  destruct (hotels db !! hid) as [hotel|] eqn:Hh;
    [|split; [split; [done|by intros (?&?&?&_)]|by split]].
  destruct (users db !! uid) as [user|] eqn:Hu;
    [|split; [split; [done|by intros (?&?&?&?&_)]|by split]].
  case_decide as Ha.
  { split; [split; [done|]|by split].
    intros (h0 & u0 & [= <-] & _ & Hne & _). done. }
  destruct (User.isAdmin user) eqn:Hadm.
  { split; [split; [done|]|by split].
    intros (h0 & u0 & _ & [= <-] & _ & Hf & _). congruence. }
  destruct (hasBooked db hid uid) eqn:Hbooked; simpl.
  2:{ split; [split; [done|]|by split].
      intros (h0 & u0 & _ & _ & _ & _ & (i & b & Hi & Hb) & _).
      assert (hasBooked db hid uid = true) as Ht; [|congruence].
      apply hasBooked_true. by exists i, b. }
  apply hasBooked_true in Hbooked as (i & b & Hi & Hs1 & Hs2 & Hs3 & Hs4).
  destruct (bool_decide _) eqn:Hdup.
  { apply bool_decide_eq_true, reviewed_by_true in Hdup
      as (rid & r & Hin & Hrid & Hr).
    split; [split; [done|]|by split].
    intros (h0 & u0 & [= <-] & _ & _ & _ & _ & Hnone).
    by destruct (Hnone rid r). }
  apply bool_decide_eq_false in Hdup.
  split; [split; [intros _|done]|split; [done|intros _]].
  - exists hotel, user. repeat split; try done; [by exists i, b|].
    intros rid r Hin Hrid Hr. apply Hdup, reviewed_by_true.
    by exists rid, r.
  - cbn [fst snd]. split.
    + exists user. split; [done|].
      rewrite recalculateHotelRating_reviews. simpl.
      by rewrite lookup_insert_eq.
    + unfold recalculateHotelRating. simpl. rewrite lookup_insert_eq. simpl.
      eexists. rewrite lookup_insert_eq. split; [done|]. simpl.
      apply elem_of_app. right. by apply list_elem_of_singleton.
Qed.

(** X14. One review per author and hotel: if no hotel lists two reviews by
    the same author, this still holds after a review is created under an
    unused id, updated or deleted. *)
Theorem one_review_per_author_preserved (db : Db) (req : ReviewRequest) :
  one_review_per_author db →
  fresh_review_id db req →
  one_review_per_author (review_route db req).1.
Proof.
  intros Hu Hfresh.
  destruct req as [uid hid text rating newId|uid hid rid text rating
                  |uid hid rid]; simpl in *.
  - unfold post_hotels_reviews.
    destruct (hotels db !! hid) as [hotel|] eqn:Hh; [|done].
    destruct (users db !! uid) as [user|]; [|done].
    case_decide; [done|]. destruct (User.isAdmin user); [done|].
    destruct (negb _); [done|].
    destruct (bool_decide _) eqn:Hdup; [done|].
    apply bool_decide_eq_false in Hdup. simpl.
    destruct Hfresh as [Hnone Hunlisted].
    apply one_review_per_author_recalculate.
    intros hid' h'. simpl. rewrite lookup_insert.
    assert (Hold : ∀ h, hotels db !! hid' = Some h →
              omap (λ x, <[newId:=Review.mk text rating uid
                                    (User.username user)]> (reviews db) !! x)
                (Hotel.reviews h)
              = populate_reviews db h).
    { intros h Hh'. unfold populate_reviews.
      apply list_omap_ext, Forall2_same_length_lookup_2; [done|].
      intros k x y Hx Hy. simplify_eq.
      rewrite lookup_insert_ne; [done|]. intros <-.
      apply (Hunlisted hid' h Hh'). by eapply list_elem_of_lookup_2. }
    case_decide as Hd; [intros [= <-]; subst hid'|intros Hh'].
    + unfold populate_reviews. simpl.
      rewrite omap_app, (Hold hotel Hh). simpl.
      rewrite lookup_insert_eq. simpl. rewrite fmap_app. simpl.
      apply NoDup_app. split; [by apply (Hu hid)|]. split.
      * intros a Ha ->%list_elem_of_singleton. apply Hdup.
        apply list_elem_of_fmap in Ha as (r & Hr & Hin).
        apply Exists_exists. by exists r.
      * apply NoDup_singleton.
    + unfold populate_reviews. simpl. rewrite (Hold h' Hh').
      by apply (Hu hid').
  - unfold put_hotels_reviews.
    destruct (reviews db !! rid) as [review|]; [|done].
    case_decide; [|done]. simpl.
    apply one_review_per_author_recalculate.
    intros hid' h' Hh'. unfold populate_reviews. simpl in *.
    rewrite authors_alter. by apply (Hu hid').
  - unfold delete_hotels_reviews.
    destruct (reviews db !! rid) as [review|]; [|done].
    case_decide; [|done]. simpl.
    apply one_review_per_author_recalculate.
    intros hid' h'. simpl. rewrite lookup_alter.
    case_decide as Hd.
    + destruct (hotels db !! hid) as [h|] eqn:Hh; [|done].
      intros [= <-]. subst hid'. unfold populate_reviews. simpl.
      eapply sublist_NoDup; [by apply (Hu hid h)|].
      unfold populate_reviews.
      apply fmap_sublist, omap_delete_sublist, sublist_filter.
    + intros Hh'. unfold populate_reviews. simpl.
      eapply sublist_NoDup; [by apply (Hu hid' h')|].
      unfold populate_reviews.
      by apply fmap_sublist, omap_delete_sublist.
Qed.

Lemma one_review_per_author_preserved_witness :
  one_review_per_author db_paid
  ∧ fresh_review_id db_paid (CreateReview 1 10 "Lovely stay" 5 500)
  ∧ one_review_per_author db_guest_reviewed.
Proof.
  assert (Hu : one_review_per_author db_paid) by by_evaluation.
  assert (Hf : fresh_review_id db_paid (CreateReview 1 10 "Lovely stay" 5 500))
    by (simpl; by_evaluation).
  split; [exact Hu|]. split; [exact Hf|].
  exact (one_review_per_author_preserved db_paid
           (CreateReview 1 10 "Lovely stay" 5 500) Hu Hf).
Defined.

Lemma review_accepted_exactly_for_verified_guests_witness :
  (post_hotels_reviews db_paid 1 10 "Lovely stay" 5 500).2 = RedirectHotel 10
  ∧ (∃ user, users db_paid !! 1%N = Some user
             ∧ reviews db_guest_reviewed !! 500%N
               = Some (Review.mk "Lovely stay" 5 1 (User.username user)))
  ∧ (post_hotels_reviews db_intent 1 10 "Lovely stay" 5 500).1 = db_intent.
Proof.
  assert (Hok : (post_hotels_reviews db_paid 1 10 "Lovely stay" 5 500).2
                = RedirectHotel 10) by (vm_compute; reflexivity).
  split; [exact Hok|]. split.
  - destruct (review_accepted_exactly_for_verified_guests db_paid 1 10
                "Lovely stay" 5 500) as (_ & _ & Hstored).
    destruct (Hstored Hok) as [Hrev _]. exact Hrev.
  - destruct (review_accepted_exactly_for_verified_guests db_intent 1 10
                "Lovely stay" 5 500) as (_ & Hrefused & _).
    apply Hrefused. vm_compute. discriminate.
Defined.

(** X15. Only its author changes a review: an update or delete request of
    any other user leaves the database unchanged.  The author's update
    rewrites the text and rating of that review and keeps its author and
    every other review; the author's delete removes the review and takes
    its id out of the list of the hotel named in the request. *)
Theorem review_changed_only_by_its_author
    (db : Db) (uid hid rid : ObjectId) (review : Review.t) (text : string)
    (rating : Z) :
  reviews db !! rid = Some review →
  (Review.author_id review ≠ uid →
     put_hotels_reviews db uid hid rid text rating = (db, Redirect "back")
     ∧ delete_hotels_reviews db uid hid rid = (db, Redirect "back"))
  ∧ (Review.author_id review = uid →
     let updated := (put_hotels_reviews db uid hid rid text rating).1 in
     let deleted := (delete_hotels_reviews db uid hid rid).1 in
     reviews updated !! rid
     = Some (Review.mk text rating (Review.author_id review)
               (Review.author_username review))
     ∧ (∀ rid', rid' ≠ rid → reviews updated !! rid' = reviews db !! rid')
     ∧ reviews deleted !! rid = None
     ∧ (∀ rid', rid' ≠ rid → reviews deleted !! rid' = reviews db !! rid')
     ∧ (∀ h', hotels deleted !! hid = Some h' → rid ∉ Hotel.reviews h')).
Proof.
  intros Hrev. unfold put_hotels_reviews, delete_hotels_reviews.
  rewrite Hrev. split.
  - intros Hne. by rewrite !decide_False.
  - intros He. rewrite !decide_True by done. cbn [fst snd].
    rewrite !recalculateHotelRating_reviews. simpl.
    split; [by rewrite lookup_alter_eq, Hrev|].
    split; [intros rid' Hne; by rewrite lookup_alter_ne|].
    split; [by rewrite lookup_delete_eq|].
    split; [intros rid' Hne; by rewrite lookup_delete_ne|].
    intros h' Hh'.
    apply recalculateHotelRating_lookup in Hh' as (h & Hh & -> & _).
    simpl in Hh. rewrite lookup_alter_eq in Hh.
    destruct (hotels db !! hid) as [h0|]; [|done].
    injection Hh as <-. simpl.
    intros Hin%list_elem_of_filter. by destruct Hin.
Qed.

Lemma review_changed_only_by_its_author_witness :
  reviews db_guest_reviewed !! 500%N
  = Some (Review.mk "Lovely stay" 5 1 "guest")
  ∧ put_hotels_reviews db_guest_reviewed 2 10 500 "Awful" 1
    = (db_guest_reviewed, Redirect "back")
  ∧ reviews (delete_hotels_reviews db_guest_reviewed 1 10 500).1 !! 500%N
    = None.
Proof.
  assert (Hrev : reviews db_guest_reviewed !! 500%N
                 = Some (Review.mk "Lovely stay" 5 1 "guest"))
    by (vm_compute; reflexivity).
  split; [exact Hrev|]. split.
  - destruct (review_changed_only_by_its_author db_guest_reviewed 2 10 500 _
                "Awful" 1 Hrev) as [Hother _].
    destruct Hother as [Hput _]; [discriminate|exact Hput].
  - destruct (review_changed_only_by_its_author db_guest_reviewed 1 10 500 _
                "" 0 Hrev) as [_ Hauthor].
    destruct (Hauthor eq_refl) as (_ & _ & Hdel & _). exact Hdel.
Defined.

(** X16. Recomputing a hotel's rating is idempotent and does not depend on
    the stored average: a second recomputation changes nothing, and the
    result is the same whatever average the hotel carried before. *)
Theorem recalculation_idempotent (db : Db) (hid : ObjectId) :
  recalculateHotelRating hid (recalculateHotelRating hid db)
  = recalculateHotelRating hid db
  ∧ (∀ stale,
       recalculateHotelRating hid
         (set_hotels (alter (Hotel.set_averageRating stale) hid) db)
       = recalculateHotelRating hid db).
Proof.
  unfold recalculateHotelRating. split.
  - destruct (hotels db !! hid) as [hotel|] eqn:Hh; [|by rewrite Hh].
    simpl. rewrite lookup_insert_eq. unfold set_hotels. simpl.
    by rewrite insert_insert_eq.
  - intros stale. simpl. rewrite lookup_alter_eq.
    destruct (hotels db !! hid) as [hotel|] eqn:Hh; simpl.
    + unfold set_hotels. simpl. f_equal.
      apply map_eq. intros j. destruct (decide (hid = j)) as [<-|Hne].
      * by rewrite !lookup_insert_eq.
      * by rewrite !lookup_insert_ne, lookup_alter_ne.
    + unfold set_hotels. destruct db. simpl in *. f_equal.
      apply map_eq. intros j. destruct (decide (hid = j)) as [<-|Hne].
      * by rewrite lookup_alter_eq, Hh.
      * by rewrite lookup_alter_ne.
Qed.

(** X17. The average lies between the lowest and the highest rating: if
    every rating of a non-empty review list is between [lo] and [hi], so is
    the average. *)
Theorem average_between_bounds (rs : list Review.t) (lo hi : Z) :
  rs ≠ [] →
  Forall (λ r, lo <= Review.rating r <= hi) rs →
  (inject_Z lo <= average rs)%Q ∧ (average rs <= inject_Z hi)%Q.
Proof.
  intros Hne Hrs.
  assert (Hb : lo * Z.of_nat (length rs) <= rating_sum rs
               <= hi * Z.of_nat (length rs)).
  { clear Hne. induction Hrs as [|r rs Hr _ IH]; [simpl; unfold rating_sum;
      simpl; lia|].
    rewrite rating_sum_cons. simpl length. lia. }
  unfold average. rewrite decide_True by (destruct rs; simpl; [done|lia]).
  assert (0 < inject_Z (Z.of_nat (length rs)))%Q as Hpos.
  { change 0%Q with (inject_Z 0). rewrite <- Zlt_Qlt.
    destruct rs; simpl; [done|lia]. }
  split.
  - apply Qle_shift_div_l; [done|].
    rewrite <- inject_Z_mult, <- Zle_Qle. lia.
  - apply Qle_shift_div_r; [done|].
    rewrite <- inject_Z_mult, <- Zle_Qle. lia.
Qed.

Lemma average_between_bounds_witness :
  (inject_Z 3 <= average [Review.mk "a" 5 1 "x"; Review.mk "b" 3 2 "y"])%Q
  ∧ (average [Review.mk "a" 5 1 "x"; Review.mk "b" 3 2 "y"] <= inject_Z 5)%Q.
Proof.
  apply (average_between_bounds
           [Review.mk "a" 5 1 "x"; Review.mk "b" 3 2 "y"] 3 5).
  - discriminate.
  - repeat constructor; simpl; lia.
Defined.

(** ** Hotels *)

(** X19. Only its creator changes a hotel: an update or delete request of
    a visitor who is not logged in, or of any user other than the hotel's
    author, leaves the database unchanged.  The author's update applies the
    submitted fields and the author's delete removes the hotel; either way
    users, reviews, bookings, Payment records and all other hotels stay as
    they are, so the bookings and reviews of a deleted hotel remain. *)
Theorem hotel_changed_only_by_its_author
    (db : Db) (session : Session) (hid : ObjectId) (update : HotelUpdate.t)
    (hotel : Hotel.t) :
  hotels db !! hid = Some hotel →
  let updated := put_hotels db session hid update in
  let deleted := delete_hotels db session hid in
  (session ≠ Some (Hotel.author_id hotel) →
     updated.1 = db ∧ deleted.1 = db)
  ∧ (session = Some (Hotel.author_id hotel) →
     hotels updated.1 !! hid = Some (HotelUpdate.apply update hotel)
     ∧ hotels deleted.1 !! hid = None)
  ∧ (∀ out, out = updated.1 ∨ out = deleted.1 →
     users out = users db ∧ reviews out = reviews db
     ∧ bookings out = bookings db ∧ payments out = payments db
     ∧ ∀ hid', hid' ≠ hid → hotels out !! hid' = hotels db !! hid').
Proof.
  intros Hh. simpl.
  unfold put_hotels, delete_hotels, isLoggedIn, checkHotelOwnership.
  rewrite Hh.
  destruct session as [uid|]; simpl.
  - case_decide as Ha; simpl.
    + split; [intros Hne; destruct Hne; congruence|].
      split.
      * intros _. by rewrite lookup_alter_eq, Hh, lookup_delete_eq.
      * intros out [->| ->]; simpl; repeat split; try done; intros hid' Hne.
        -- by rewrite lookup_alter_ne.
        -- by rewrite lookup_delete_ne.
    + split; [done|]. split; [intros [= Huid]; congruence|].
      by intros out [->| ->].
  - split; [done|]. split; [done|]. by intros out [->| ->].
Qed.

Lemma hotel_changed_only_by_its_author_witness :
  hotels db_paid !! 10%N = Some inn
  ∧ (delete_hotels db_paid (Some 1%N) 10).1 = db_paid
  ∧ hotels (delete_hotels db_paid (Some 2%N) 10).1 !! 10%N = None
  ∧ bookings (delete_hotels db_paid (Some 2%N) 10).1 = bookings db_paid.
Proof.
  assert (Hh : hotels db_paid !! 10%N = Some inn) by (vm_compute; reflexivity).
  split; [exact Hh|].
  pose (noop := HotelUpdate.mk None None None None None None).
  split; [|split].
  - destruct (hotel_changed_only_by_its_author db_paid (Some 1%N) 10 noop inn
                Hh) as (Hother & _).
    destruct Hother as [_ Hdel]; [discriminate|exact Hdel].
  - destruct (hotel_changed_only_by_its_author db_paid (Some 2%N) 10 noop inn
                Hh) as (_ & Hauthor & _).
    destruct (Hauthor eq_refl) as [_ Hdel]. exact Hdel.
  - destruct (hotel_changed_only_by_its_author db_paid (Some 2%N) 10 noop inn
                Hh) as (_ & _ & Hframe).
    destruct (Hframe _ (or_intror eq_refl)) as (_ & _ & Hb & _). exact Hb.
Defined.

(** X20. Only an admin creates a hotel: if the request changes the
    database, the session belongs to a stored admin and an image was
    uploaded.  The hotel is stored under the new id with the session user
    as author, 10 rooms when none are given, average 0 and no reviews, so
    that the rating invariants and the one-review-per-author invariant
    carry over. *)
Theorem hotel_created_only_by_admins
    (db : Db) (session : Session) (name : string) (price : Z)
    (totalRooms : option Z) (file : option string) (newId : ObjectId) :
  let out := post_hotels db session name price totalRooms file newId in
  (out.1 ≠ db →
     ∃ uid user,
       session = Some uid ∧ users db !! uid = Some user
       ∧ User.isAdmin user = true ∧ is_Some file
       ∧ hotels out.1 !! newId
         = Some (Hotel.mk name price (default 10 totalRooms) 0%Q uid []))
  ∧ (ratings_in_range db → ratings_in_range out.1)
  ∧ (averages_in_range db → averages_in_range out.1)
  ∧ (averages_current db → averages_current out.1)
  ∧ (one_review_per_author db → one_review_per_author out.1).
Proof.
  simpl. unfold post_hotels, isLoggedIn, isAdmin.
  assert (Hsame : (db ≠ db → ∃ uid user,
                     session = Some uid ∧ users db !! uid = Some user
                     ∧ User.isAdmin user = true ∧ is_Some file
                     ∧ hotels db !! newId
                       = Some (Hotel.mk name price (default 10 totalRooms)
                                 0%Q uid []))
                  ∧ (ratings_in_range db → ratings_in_range db)
                  ∧ (averages_in_range db → averages_in_range db)
                  ∧ (averages_current db → averages_current db)
                  ∧ (one_review_per_author db → one_review_per_author db)).
  { split; [by intros []|]. split; [done|]. split; [done|]. by split. }
  destruct session as [uid|]; [|exact Hsame].
  destruct (users db !! uid) as [user|] eqn:Hu; [|exact Hsame].
  destruct (User.isAdmin user) eqn:Ha; [|exact Hsame].
  destruct file as [f|]; [|exact Hsame]. clear Hsame. simpl.
  split; [|split; [|split; [|split]]].
  - intros _. exists uid, user. rewrite lookup_insert_eq. by repeat split.
  - done.
  - intros Hr hid' h'. simpl. rewrite lookup_insert.
    case_decide; [intros [= <-]; by simpl|apply Hr].
  - intros Hc hid' h'. simpl. rewrite lookup_insert.
    case_decide; [intros [= <-]; by simpl|apply Hc].
  - intros Hu1 hid' h'. simpl. rewrite lookup_insert.
    case_decide; [intros [= <-]; simpl; constructor|apply Hu1].
Qed.

Lemma hotel_created_only_by_admins_witness :
  averages_current db_with_admin
  ∧ averages_current
      (post_hotels db_with_admin (Some 2%N) "Riverside" 195 None
         (Some "image-1.jpg") 12).1
  ∧ ∃ uid user,
      users db_with_admin !! uid = Some user ∧ User.isAdmin user = true
      ∧ hotels (post_hotels db_with_admin (Some 2%N) "Riverside" 195 None
                  (Some "image-1.jpg") 12).1 !! 12%N
        = Some (Hotel.mk "Riverside" 195 10 0%Q uid []).
Proof.
  assert (Hc : averages_current db_with_admin) by by_evaluation.
  destruct (hotel_created_only_by_admins db_with_admin (Some 2%N)
              "Riverside" 195 None (Some "image-1.jpg") 12)
    as (Hchanged & _ & _ & Hcur & _).
  split; [exact Hc|]. split; [exact (Hcur Hc)|].
  destruct Hchanged as (uid & user & _ & Hu & Ha & _ & Hh).
  - intros Heq. apply (f_equal (λ d, hotels d !! 12%N)) in Heq.
    vm_compute in Heq. discriminate.
  - exists uid, user. split; [exact Hu|]. split; [exact Ha|exact Hh].
Defined.

(** X21. The hotel search returns exactly the stored hotels that pass the
    filters present in the query: with [minRating] the average must reach
    it, with [maxPrice] the price must not exceed it; without filters every
    hotel is listed, and tightening both filters never adds a hotel. *)
Theorem hotel_search_exact
    (db : Db) (minRating : option Q) (maxPrice : option Z) :
  (∀ hid h,
     (hid, h) ∈ get_hotels db minRating maxPrice
     ↔ hotels db !! hid = Some h
       ∧ (∀ m, minRating = Some m → (m <= Hotel.averageRating h)%Q)
       ∧ (∀ p, maxPrice = Some p → Hotel.price h <= p))
  ∧ get_hotels db None None = map_to_list (hotels db)
  ∧ (∀ m m' p p', (m <= m')%Q → p' <= p →
       get_hotels db (Some m') (Some p') ⊆ get_hotels db (Some m) (Some p)).
Proof.
  split; [|split].
  - intros hid h. unfold get_hotels.
    rewrite list_elem_of_filter, elem_of_map_to_list. unfold hotel_matches.
    simpl. split.
    + intros [[Hm Hp] Hh]. split; [done|].
      split; [by intros m ->|by intros p ->].
    + intros (Hh & Hm & Hp). split; [|done].
      split; [destruct minRating; auto|destruct maxPrice; auto].
  - unfold get_hotels. induction (map_to_list (hotels db)) as [|x l IH];
      [done|].
    rewrite filter_cons_True by done. by rewrite IH.
  - intros m m' p p' Hm Hp [hid h]. unfold get_hotels.
    rewrite !list_elem_of_filter. unfold hotel_matches. simpl.
    intros [[Hm' Hp'] Hin]. split; [|done].
    split; [by apply (Qle_trans _ m')|lia].
Qed.

Lemma hotel_search_exact_witness :
  (0 <= 1)%Q ∧ 150 <= 200
  ∧ get_hotels db_guest_reviewed (Some 1%Q) (Some 150)
    ⊆ get_hotels db_guest_reviewed (Some 0%Q) (Some 200).
Proof.
  assert (H1 : (0 <= 1)%Q) by by_evaluation.
  assert (H2 : 150 <= 200) by lia.
  split; [exact H1|]. split; [exact H2|].
  destruct (hotel_search_exact db_guest_reviewed None None) as (_ & _ & Hmono).
  exact (Hmono 0%Q 1%Q 200 150 H1 H2).
Defined.

(** ** Booking lists *)

Section BookingLists.

#[local] Instance newer_first_total : Total newer_first.
Proof. intros x y. unfold newer_first. lia. Qed.

#[local] Instance newer_first_trans : Transitive newer_first.
Proof. intros x y z. unfold newer_first. lia. Qed.

Lemma newest_first_rows (P : ObjectId * Booking.t → Prop)
    `{∀ x, Decision (P x)} (bs : gmap N Booking.t) id b :
  (id, b) ∈ merge_sort newer_first (filter P (map_to_list bs))
  ↔ bs !! id = Some b ∧ P (id, b).
Proof.
  rewrite merge_sort_Permutation, list_elem_of_filter, elem_of_map_to_list.
  tauto.
Qed.

Lemma newest_first_sorted (l : list (ObjectId * Booking.t)) :
  StronglySorted newer_first (merge_sort newer_first l).
Proof. apply StronglySorted_merge_sort; apply _. Qed.

End BookingLists.


(** X23. "My bookings" lists exactly the bookings of the logged-in user,
    newest first; a visitor who is not logged in is sent to the login
    page. *)
Theorem my_bookings_are_mine (db : Db) (session : Session) :
  match get_my_bookings db session with
  | inr rows =>
      ∃ uid,
        session = Some uid
        ∧ (∀ id b,
             (id, b) ∈ rows
             ↔ bookings db !! id = Some b ∧ Booking.user b = uid)
        ∧ StronglySorted newer_first rows
  | inl response => session = None ∧ response = Redirect "/login"
  end.
Proof.
  unfold get_my_bookings, isLoggedIn.
  destruct session as [uid|]; [|done].
  exists uid. split; [done|]. split.
  - intros id b. apply newest_first_rows.
  - apply newest_first_sorted.
Qed.


Lemma my_bookings_are_mine_witness :
  ∃ rows, get_my_bookings db_paid (Some 1%N) = inr rows
          ∧ (100%N, mark_confirmed booking_100) ∈ rows.
Proof.
  pose proof (my_bookings_are_mine db_paid (Some 1%N)) as Hrows.
  destruct (get_my_bookings db_paid (Some 1%N)) as [r|rows] eqn:E.
  - vm_compute in E. discriminate.
  - exists rows. split; [reflexivity|].
    destruct Hrows as (uid & [= <-] & Hrows & _).
    apply Hrows. split; vm_compute; reflexivity.
Defined.

(** ** Authentication *)

Section Login.
Implicit Types (db : Db).

Lemma User_findOne_username_Some db username uid user :
  User_findOne_username db username = Some (uid, user) →
  users db !! uid = Some user ∧ User.username user = username.
Proof.
  unfold User_findOne_username. intros Hhead.
  apply head_Some_elem_of, list_elem_of_filter in Hhead as [Hname Hin].
  by apply elem_of_map_to_list in Hin.
Qed.

Lemma User_findOne_username_None db username :
  User_findOne_username db username = None
  ↔ ∀ uid user, users db !! uid = Some user → User.username user ≠ username.
Proof.
  unfold User_findOne_username. rewrite head_None. split.
  - intros Hnil uid user Hu Hname.
    assert ((uid, user) ∈ filter (λ iu, User.username iu.2 = username)
                             (map_to_list (users db))) as Hin.
    { apply list_elem_of_filter. split; [done|].
      by apply elem_of_map_to_list. }
    rewrite Hnil in Hin. by apply elem_of_nil in Hin.
  - intros Hnone.
    destruct (filter _ _) as [|[uid user] l] eqn:E; [done|].
    assert ((uid, user) ∈ filter (λ iu, User.username iu.2 = username)
                             (map_to_list (users db))) as Hin
      by (rewrite E; left).
    apply list_elem_of_filter in Hin as [Hname Hin].
    apply elem_of_map_to_list in Hin. by destruct (Hnone uid user).
Qed.

(** With a single user of that name, that user is the one found. *)
Lemma User_findOne_username_unique db username uid user :
  users db !! uid = Some user → User.username user = username →
  (∀ uid' user', users db !! uid' = Some user' →
                 User.username user' = username → uid' = uid) →
  User_findOne_username db username = Some (uid, user).
Proof.
  intros Hu Hname Huniq.
  destruct (User_findOne_username db username) as [[uid' user']|] eqn:E.
  - apply User_findOne_username_Some in E as [Hu' Hname'].
    assert (uid' = uid) as -> by by eapply Huniq. congruence.
  - rewrite User_findOne_username_None in E. by destruct (E uid user).
Qed.
End Login.

(** X25. Registration and login round trip: after registering a name that
    no stored user has, the new user is logged in, stored with the
    submitted password and with admin rights exactly when the admin code
    was ["secret123"]; a later login with the same name and password opens
    a session for that user, and with any other password it is refused. *)
Theorem register_then_login
    (db : Db) (session : Session) (username password adminCode : string)
    (newId : ObjectId) :
  (∀ uid user, users db !! uid = Some user →
               User.username user ≠ username) →
  let registered := post_register db username password adminCode newId in
  registered.1.2 = Some newId
  ∧ users registered.1.1 !! newId
    = Some (User.mk username password (bool_decide (adminCode = "secret123")))
  ∧ post_login registered.1.1 session username password
    = (Some newId, Redirect "/hotels")
  ∧ (∀ password', password' ≠ password →
       post_login registered.1.1 session username password'
       = (session, Redirect "/login")).
Proof.
  intros Hfree. simpl.
  assert (Hfound :
    User_findOne_username
      (set_users
         (insert newId
            (User.mk username password (bool_decide (adminCode = "secret123"))))
         db) username
    = Some (newId,
            User.mk username password
              (bool_decide (adminCode = "secret123")))).
  { apply User_findOne_username_unique; simpl.
    - by rewrite lookup_insert_eq.
    - done.
    - intros uid' user'. rewrite lookup_insert.
      case_decide; [done|]. intros Hu Hname. by destruct (Hfree uid' user'). }
  split; [done|]. split; [by rewrite lookup_insert_eq|].
  unfold post_login. rewrite Hfound. simpl. split.
  - by rewrite decide_True.
  - intros password' Hne. by rewrite decide_False.
Qed.

Lemma register_then_login_witness :
  users db_with_admin !! 2%N = Some (User.mk "admin1" "password123" true)
  ∧ post_login db_with_admin None "admin1" "password123"
    = (Some 2%N, Redirect "/hotels").
Proof.
  assert (Hfree : ∀ uid user, users db_paid !! uid = Some user →
                              User.username user ≠ "admin1").
  { apply (User_findOne_username_None db_paid "admin1").
    vm_compute. reflexivity. }
  destruct (register_then_login db_paid None "admin1" "password123"
              "secret123" 2 Hfree) as (_ & Hstored & Hlogin & _).
  split; [exact Hstored|exact Hlogin].
Defined.

(** ** Nights *)

(** X26. Billing by started nights: a stay with [checkIn < checkOut] is
    billed at least one night, a longer stay is never billed fewer nights
    than a shorter one, a stay of whole days is billed those days, and any
    started further day is billed as a full night. *)
Theorem nights_billed_by_started_day (d d' k extra : Z) :
  (0 < d → 1 <= Math_ceil_div d day_ms)
  ∧ (d <= d' → Math_ceil_div d day_ms <= Math_ceil_div d' day_ms)
  ∧ Math_ceil_div (k * day_ms) day_ms = k
  ∧ (0 < extra < day_ms → Math_ceil_div (k * day_ms + extra) day_ms = k + 1).
Proof.
  pose proof (Math_ceil_div_spec d day_ms day_ms_pos) as Hd.
  pose proof (Math_ceil_div_spec d' day_ms day_ms_pos) as Hd'.
  pose proof day_ms_pos as Hpos.
  split; [intros; nia|]. split; [intros; nia|].
  split; [apply nights_whole_days|apply nights_partial_day].
Qed.

Lemma nights_billed_by_started_day_witness :
  1 <= Math_ceil_div 1 day_ms
  ∧ Math_ceil_div (2 * day_ms + 1) day_ms = 3.
Proof.
  destruct (nights_billed_by_started_day 1 1 2 1) as (H1 & _ & _ & H3).
  split; [apply H1; lia|apply H3; unfold day_ms; lia].
Defined.

(** ** Booking and paying do not reserve rooms *)

(** X27. Rooms are held by confirmed bookings only: a booking request
    under an unused id, a payment-page call and the review routes leave the
    available rooms of every hotel and interval exactly as they were, so a
    second guest is offered the rooms a first guest has booked but not yet
    had confirmed. *)
Theorem unconfirmed_bookings_hold_no_rooms
    (constructEvent : string → string → string → option Stripe.Event)
    (secret : string) (db : Db) (req : Request) (hotel : Hotel.t)
    (hid : ObjectId) (checkIn checkOut : Date) :
  holds_no_rooms req →
  fresh_booking_id db req →
  availableRooms (handle constructEvent secret db req).1 hotel hid
    checkIn checkOut
  = availableRooms db hotel hid checkIn checkOut.
Proof.
  intros Hkind Hfresh.
  destruct req as [uid h ci co n today newId|uid j created now|body sig
                  |uid q|uid j now|req]; simpl in *; try done.
  - unfold post_hotels_book.
    destruct (users db !! uid) as [user|]; [|done].
    destruct (User.isAdmin user); [done|].
    destruct (validate_and_price _ _ _ _ _ _ _); try done.
    unfold Booking_create. simpl. case_decide; [|done]. simpl.
    unfold availableRooms, existingBookings. simpl.
    rewrite bookedRooms_insert, delete_id by done.
    unfold rooms_committed_by, counts_as_committed. simpl.
    rewrite andb_false_r. simpl. lia.
  - unfold post_bookings_payment.
    destruct (bookings db !! j) as [bj|] eqn:Hj; [|done].
    destruct (users db !! _); [|done].
    case_decide as Howner; [|done].
    destruct created as [[intentId clientSecret]|]; [|done]. simpl.
    unfold availableRooms at 1, existingBookings. simpl.
    pose proof (availableRooms_replace db hotel hid checkIn checkOut j bj
                  (Booking.set_paymentIntentId intentId bj) Hj) as Hrep.
    unfold availableRooms at 1, existingBookings in Hrep. simpl in Hrep.
    rewrite Hrep. unfold rooms_committed_by, counts_as_committed. simpl. lia.
  - unfold availableRooms, existingBookings.
    by rewrite review_route_bookings.
Qed.

Lemma unconfirmed_bookings_hold_no_rooms_witness :
  availableRooms db_paid inn 10 (day 11) (day 12) = 10
  ∧ booking_state
      (handle demo_constructEvent "whsec" db_paid
         (Book 1 10 (day 11) (day 12) 10 (day 2) 101)).1 101
    = Some (Booking.pending, Booking.pay_pending)
  ∧ availableRooms
      (handle demo_constructEvent "whsec" db_paid
         (Book 1 10 (day 11) (day 12) 10 (day 2) 101)).1
      inn 10 (day 11) (day 12) = 10.
Proof.
  split; [vm_compute; reflexivity|]. split; [vm_compute; reflexivity|].
  rewrite (unconfirmed_bookings_hold_no_rooms demo_constructEvent "whsec"
             db_paid (Book 1 10 (day 11) (day 12) 10 (day 2) 101) inn 10
             (day 11) (day 12) I).
  - vm_compute. reflexivity.
  - vm_compute. reflexivity.
Defined.

(** X28. A payment attempt is recorded only for the owner: if the
    payment-page call changes the database, the booking exists, the
    session user owns it and the processor returned an intent; then exactly
    one Payment record is appended, pending, for this booking and user,
    with the booking's total price and the intent's id, and the booking
    keeps its status and payment status. *)
Theorem payment_attempt_only_for_owner
    (db : Db) (uid id : ObjectId) (created : option (string * string))
    (now : Date) :
  let out := post_bookings_payment db uid id created now in
  out.1 ≠ db →
  ∃ b intentId clientSecret,
    bookings db !! id = Some b ∧ Booking.user b = uid
    ∧ created = Some (intentId, clientSecret)
    ∧ out.2 = JsonClientSecret clientSecret
    ∧ payments out.1
      = payments db
        ++ [Payment.mk id uid (Booking.totalPrice b) "usd" intentId
              Payment.pending now]
    ∧ booking_state out.1 id = booking_state db id
    ∧ ∀ j, j ≠ id → bookings out.1 !! j = bookings db !! j.
Proof.
  simpl. unfold post_bookings_payment.
  destruct (bookings db !! id) as [b|] eqn:Hb; [|done].
  destruct (users db !! _); [|done].
  case_decide as Hu; [|done].
  destruct created as [[intentId clientSecret]|]; [|done]. simpl.
  intros _. exists b, intentId, clientSecret. subst uid.
  do 5 (split; [done|]). split.
  - unfold booking_state. simpl. by rewrite lookup_insert_eq, Hb.
  - intros j Hne. by rewrite lookup_insert_ne.
Qed.

Lemma payment_attempt_only_for_owner_witness :
  payment_statuses
    (post_bookings_payment db_booked 1 100 (Some ("pi_1", "secret_1"))
       (day 1)).1 = [Payment.pending]
  ∧ booking_state db_intent 100 = booking_state db_booked 100.
Proof.
  destruct (payment_attempt_only_for_owner db_booked 1 100
              (Some ("pi_1", "secret_1")) (day 1))
    as (b & intentId & clientSecret & Hb & _ & Hc & _ & Hpay & Hstate & _).
  - intros Heq. apply (f_equal payment_statuses) in Heq.
    vm_compute in Heq. discriminate.
  - split; [|exact Hstate].
    unfold payment_statuses. rewrite Hpay. injection Hc as <- _.
    vm_compute. reflexivity.
Defined.
